(** * SafeGuard: bytecode scanner and policy gate

    A shallow embedding of

    - [scripts/contract_scanner.py] and [scripts/safeguard_scan.py]
      (the two EVM bytecode scanners, both called [scan_bytecode], and
      their callers [main], [scan_address], [scan_tx]),
    - [scripts/safeguard.py] ([decision], [max_decision], [eval_skill],
      [eval_payment]),
    - [scripts/spendguard.py] ([evaluate_transaction] and the loop of
      [main]),

    together with the Python string primitives these scripts rely on.

    Conventions.  A Python [str] is a [string] whose characters are the
    code points 0..255; [lower], [strip], [int(_, 16)] and [repr] are
    modelled on that range.  A [while] loop that may not terminate
    takes a fuel argument and answers [OutOfFuel] when it is exhausted.

    Numbers.  [Safeguard] and [Spendguard] take requests whose fields
    have the types the code expects, an amount being the rational value
    of its float, and compare and add them exactly.  [SafeguardRequest]
    takes the requests as [json.load] gives them, where a field of
    another type raises, and [SpendguardFloat] adds amounts as floats:
    [PyFloat] rounds to the nearest double. *)

From Stdlib Require Import ZArith QArith Ascii String List Bool Lia.
From Stdlib Require Import Floats.SpecFloat.
From stdpp Require Import base decidable option list strings gmap sorting pretty.

Local Open Scope Z_scope.

(** ** Outcome of a Python computation *)

Inductive run (A : Type) : Type :=
| Ok (a : A)
| ValueError
| OutOfFuel.
Arguments Ok {A} a.
Arguments ValueError {A}.
Arguments OutOfFuel {A}.

Global Instance run_ret : MRet run := fun _ a => Ok a.
Global Instance run_bind : MBind run := fun _ _ k m =>
  match m with
  | Ok a => k a
  | ValueError => ValueError
  | OutOfFuel => OutOfFuel
  end.

(** ** Python string primitives *)

Module Py.

Definition len (s : string) : Z := Z.of_nat (String.length s).

(** Index normalisation of a slice bound: a negative bound counts from
    the end, and the result is clamped to [0, len]. *)
Definition slice_bound (n i : Z) : Z :=
  if i <? 0 then Z.max 0 (i + n) else Z.min i n.

(** [s[lo:hi]] *)
Definition slice (s : string) (lo hi : Z) : string :=
  let n := len s in
  let a := slice_bound n lo in
  let b := slice_bound n hi in
  if a <? b then String.substring (Z.to_nat a) (Z.to_nat (b - a)) s else "".

(** [s[lo:]] *)
Definition slice_from (s : string) (lo : Z) : string := slice s lo (len s).

Definition startswith (s p : string) : bool := String.prefix p s.

Definition code (c : ascii) : Z := Z.of_N (N_of_ascii c).

Definition between (lo hi : Z) (c : ascii) : bool :=
  (lo <=? code c) && (code c <=? hi).

(** [str.lower] on one character: A-Z and the Latin-1 capitals. *)
Definition lower_char (c : ascii) : ascii :=
  if between 65 90 c || (between 192 222 c && negb (code c =? 215))
  then ascii_of_N (N_of_ascii c + 32) else c.

Fixpoint lower (s : string) : string :=
  match s with
  | EmptyString => EmptyString
  | String c r => String (lower_char c) (lower r)
  end.

(** [a <= b] on strings: lexicographic on code points. *)
Definition le (a b : string) : bool := String.leb a b.

(** [needle in hay] *)
Fixpoint contains (needle hay : string) : bool :=
  String.prefix needle hay ||
  match hay with
  | EmptyString => false
  | String _ r => contains needle r
  end.

(** [str.isspace] on one character. *)
Definition isspace (c : ascii) : bool :=
  between 9 13 c || between 28 32 c || (code c =? 133) || (code c =? 160).

Fixpoint lstrip (s : string) : string :=
  match s with
  | String c r => if isspace c then lstrip r else s
  | EmptyString => EmptyString
  end.

Fixpoint rstrip (s : string) : string :=
  match s with
  | EmptyString => EmptyString
  | String c r =>
      match rstrip r with
      | EmptyString => if isspace c then EmptyString else String c EmptyString
      | r' => String c r'
      end
  end.

(** [s.strip()] *)
Definition strip (s : string) : string := rstrip (lstrip s).

(** *** [int(s, 16)] *)

Definition hex_digit (c : ascii) : option Z :=
  if between 48 57 c then Some (code c - 48)
  else if between 97 102 c then Some (code c - 87)
  else if between 65 70 c then Some (code c - 55)
  else None.

(** The white space [int] skips around the literal. *)
Definition int_space (c : ascii) : bool :=
  between 9 13 c || (code c =? 32) || (code c =? 133) || (code c =? 160).

Fixpoint int_lstrip (s : string) : string :=
  match s with
  | String c r => if int_space c then int_lstrip r else s
  | EmptyString => EmptyString
  end.

Fixpoint int_rstrip (s : string) : string :=
  match s with
  | EmptyString => EmptyString
  | String c r =>
      match int_rstrip r with
      | EmptyString => if int_space c then EmptyString else String c EmptyString
      | r' => String c r'
      end
  end.

(** Digits with single underscores between them; [acc] is the value of
    the digits read so far and [sep] tells whether the previous
    character was an underscore. *)
Fixpoint hex_digits (s : string) (acc : Z) (sep : bool) : option Z :=
  match s with
  | EmptyString => if sep then None else Some acc
  | String c r =>
      if (code c =? 95) then
        if sep then None else hex_digits r acc true
      else
        match hex_digit c with
        | Some d => hex_digits r (16 * acc + d) false
        | None => None
        end
  end.

(** The body of the literal after the sign: an optional [0x] prefix
    (which may be followed by one underscore), then the digits. *)
Definition hex_body (s : string) : option Z :=
  match s with
  | String "0"%char (String x r) =>
      if (code x =? 120) || (code x =? 88) then
        match r with
        | EmptyString => None
        | String "_"%char r' => hex_digits r' 0 true
        | _ => hex_digits r 0 true
        end
      else hex_digits s 0 true
  | _ => hex_digits s 0 true
  end.

Definition int16 (s : string) : option Z :=
  match int_rstrip (int_lstrip s) with
  | String "+"%char r => hex_body r
  | String "-"%char r => Z.opp <$> hex_body r
  | r => hex_body r
  end.

End Py.

(** ** Python exceptions

    The outcome of a call that may raise: what it returns, or the
    exception that ends it. *)

Module Exn.

Inductive exception :=
| AttributeError
| TypeError
| ValueError
| OverflowError.

End Exn.

Inductive outcome (A : Type) : Type :=
| Returns (a : A)
| Raises (e : Exn.exception).
Arguments Returns {A} a.
Arguments Raises {A} e.

Global Instance outcome_ret : MRet outcome := fun _ a => Returns a.
Global Instance outcome_bind : MBind outcome := fun _ _ k m =>
  match m with
  | Returns a => k a
  | Raises e => Raises e
  end.

(** ** Python floats

    A [float] is an IEEE 754 double: a rational that the format holds,
    an infinity or a NaN (the sign of a zero is not kept).  [round] is
    the rounding to the nearest double, ties to even, of
    [Floats.SpecFloat]; sums and conversions round with it. *)

Module PyFloat.

Inductive float :=
| Finite (x : Q)
| Infinite (negative : bool)
| NaN.

Definition prec : Z := 53.
Definition emax : Z := 1024.

Definition of_spec (x : spec_float) : float :=
  match x with
  | S754_zero _ => Finite 0
  | S754_infinity s => Infinite s
  | S754_nan => NaN
  | S754_finite s m e =>
      Finite (Qred (inject_Z (if s then Z.neg m else Z.pos m) * Qpower 2 e))
  end.

(** The double nearest to the rational [x].  The quotient is taken to
    63 bits or more, with one more bit that tells whether anything is
    left of the division; [binary_normalize] rounds that to 53 bits. *)
Definition round (x : Q) : float :=
  let n := Qnum x in
  let d := Z.pos (Qden x) in
  let k := Z.max 0 (64 + Z.log2 d - Z.log2 (Z.abs n)) in
  let a := Z.abs n * 2 ^ k in
  let m := a / d in
  let sticky := if a mod d =? 0 then 0 else 1 in
  of_spec (binary_normalize prec emax (Z.sgn n * (2 * m + sticky)) (- k - 1) false).

(** [a + b] *)
Definition add (a b : float) : float :=
  match a, b with
  | NaN, _ | _, NaN => NaN
  | Infinite s, Infinite s' => if Bool.eqb s s' then a else NaN
  | Infinite _, Finite _ => a
  | Finite _, Infinite _ => b
  | Finite x, Finite y => round (x + y)
  end.

(** [a > b]; a comparison with a NaN is false. *)
Definition gt (a b : float) : bool :=
  match a, b with
  | NaN, _ | _, NaN => false
  | Finite x, Finite y => negb (Qle_bool x y)
  | Infinite s, Finite _ => negb s
  | Finite _, Infinite s => s
  | Infinite s, Infinite s' => negb s && s'
  end.

(** Truth value: every float but zero. *)
Definition truthy (a : float) : bool :=
  match a with
  | Finite x => negb (Qeq_bool x 0)
  | _ => true
  end.

(** [float(n)] of an [int]: the nearest double, OverflowError when that
    is beyond the largest one. *)
Definition of_int (n : Z) : outcome float :=
  match round (inject_Z n) with
  | Infinite _ => Raises Exn.OverflowError
  | x => Returns x
  end.

(** *** [float(s)] of a [str] *)

Definition is_digit (c : ascii) : bool := Py.between 48 57 c.

(** The underscores taken out; each one stands between two digits.
    [prev] is the character before [s]. *)
Fixpoint without_underscores (prev : ascii) (s : string) : option string :=
  match s with
  | EmptyString => if Py.code prev =? 95 then None else Some EmptyString
  | String c r =>
      if Py.code c =? 95 then
        if is_digit prev then without_underscores c r else None
      else if (Py.code prev =? 95) && negb (is_digit c) then None
      else String c <$> without_underscores c r
  end.

(** The digits at the head of [s]: their value on top of [acc], their
    number on top of [count], and what follows them. *)
Fixpoint read_digits (s : string) (acc count : Z) : Z * Z * string :=
  match s with
  | EmptyString => (acc, count, s)
  | String c r =>
      if is_digit c then read_digits r (10 * acc + (Py.code c - 48)) (count + 1)
      else (acc, count, s)
  end.

Definition read_sign (s : string) : bool * string :=
  match s with
  | String "-"%char r => (true, r)
  | String "+"%char r => (false, r)
  | _ => (false, s)
  end.

(** The exponent part, which ends the literal: nothing, or [e] or [E],
    a sign and at least one digit. *)
Definition read_exponent (s : string) : option Z :=
  match s with
  | EmptyString => Some 0
  | String c r =>
      if (Py.code c =? 101) || (Py.code c =? 69) then
        let '(negative, r) := read_sign r in
        let '(e, count, rest) := read_digits r 0 0 in
        if (0 <? count) && String.eqb rest ""
        then Some (if negative then - e else e) else None
      else None
  end.

(** A decimal literal: digits, a point and digits (at least one digit
    in all), an exponent. *)
Definition read_number (s : string) : option Q :=
  let '(i, int_count, r) := read_digits s 0 0 in
  let '(m, frac_count, r) :=
    match r with
    | String "."%char r' => read_digits r' i 0
    | _ => (i, 0, r)
    end in
  if 0 <? int_count + frac_count then
    e ← read_exponent r; Some (inject_Z m * Qpower 10 (e - frac_count))%Q
  else None.

Definition of_str (s : string) : outcome float :=
  match without_underscores (ascii_of_N 0) s with
  | None => Raises Exn.ValueError
  | Some s =>
      let '(negative, r) := read_sign (Py.int_rstrip (Py.int_lstrip s)) in
      let name := Py.lower r in
      if String.eqb name "inf" || String.eqb name "infinity"
      then Returns (Infinite negative)
      else if String.eqb name "nan" then Returns NaN
      else
        match read_number r with
        | Some x => Returns (round (if negative then - x else x)%Q)
        | None => Raises Exn.ValueError
        end
  end.

End PyFloat.

(** ** JSON values

    What [json.load] makes of a request file: [None], [bool], [int],
    [float], [str], [list] and [dict], with the operations the scripts
    apply to them. *)

Module Json.

#[local] Unset Elimination Schemes.
Inductive json :=
| JNull
| JBool (b : bool)
| JInt (n : Z)
| JFloat (x : PyFloat.float)
| JStr (s : string)
| JList (l : list json)
| JDict (d : list (string * json)).
#[local] Set Elimination Schemes.

(** Truth value *)
Definition truthy (v : json) : bool :=
  match v with
  | JNull => false
  | JBool b => b
  | JInt n => negb (n =? 0)
  | JFloat x => PyFloat.truthy x
  | JStr s => negb (String.eqb s "")
  | JList l => match l with [] => false | _ => true end
  | JDict d => match d with [] => false | _ => true end
  end.

(** [a or b] *)
Definition or (a b : json) : json := if truthy a then a else b.

(** [v.lower()] and [v.strip()]: methods of [str] only. *)
Definition lower (v : json) : outcome string :=
  match v with
  | JStr s => Returns (Py.lower s)
  | _ => Raises Exn.AttributeError
  end.

Definition strip (v : json) : outcome string :=
  match v with
  | JStr s => Returns (Py.strip s)
  | _ => Raises Exn.AttributeError
  end.

(** [float(v)] *)
Definition float (v : json) : outcome PyFloat.float :=
  match v with
  | JBool b => Returns (PyFloat.Finite (if b then 1 else 0))
  | JInt n => PyFloat.of_int n
  | JFloat x => Returns x
  | JStr s => PyFloat.of_str s
  | JNull | JList _ | JDict _ => Raises Exn.TypeError
  end.

Definition hashable (v : json) : bool :=
  match v with
  | JList _ | JDict _ => false
  | _ => true
  end.

Definition as_str (v : json) : option string :=
  match v with
  | JStr s => Some s
  | _ => None
  end.

(** The characters of a string, each a string of length one. *)
Fixpoint chars (s : string) : list string :=
  match s with
  | EmptyString => []
  | String c r => String c EmptyString :: chars r
  end.

(** The strings of [set(v)]: those among the elements of a list, all of
    which have to be hashable; the keys of a dict; the characters of a
    string.  (The other elements of a list are no strings and match no
    permission name.) *)
Definition str_set (v : json) : outcome (gset string) :=
  match v with
  | JList l =>
      if forallb hashable l then Returns (list_to_set (omap as_str l))
      else Raises Exn.TypeError
  | JDict d => Returns (list_to_set d.*1)
  | JStr s => Returns (list_to_set (chars s))
  | JNull | JBool _ | JInt _ | JFloat _ => Raises Exn.TypeError
  end.

End Json.

(** ** The opcode walk shared by both scanners

    Both [scan_bytecode] functions run, for each pattern, the same loop:
<<
        i = 0
        count = 0
        while i < len(code):
            byte = code[i:i+2].lower()
            if byte == opcode:
                count += 1
            if byte >= "60" and byte <= "7f":
                push_size = int(byte, 16) - 0x5f
                i += 2 + push_size * 2
            else:
                i += 2
>>
    [walk_body] is one iteration on the loop state [(i, count)]. *)

Definition walk_body (code opcode : string) (i count : Z) : run (Z * Z) :=
  let byte := Py.lower (Py.slice code i (i + 2)) in
  let count := if String.eqb byte opcode then count + 1 else count in
  if Py.le "60" byte && Py.le byte "7f" then
    match Py.int16 byte with
    | Some v =>
        let push_size := v - 95 in
        Ok (i + (2 + push_size * 2), count)
    | None => ValueError
    end
  else Ok (i + 2, count).

Fixpoint walk (fuel : nat) (code opcode : string) (i count : Z) : run Z :=
  if i <? Py.len code then
    match fuel with
    | O => OutOfFuel
    | S fuel' =>
        match walk_body code opcode i count with
        | Ok (i', count') => walk fuel' code opcode i' count'
        | ValueError => ValueError
        | OutOfFuel => OutOfFuel
        end
    end
  else Ok count.

(** The loop state after [n] iterations, when the loop is still running
    after each of them. *)
Fixpoint steps (n : nat) (code opcode : string) (i count : Z) : option (Z * Z) :=
  match n with
  | O => Some (i, count)
  | S n' =>
      if i <? Py.len code then
        match walk_body code opcode i count with
        | Ok (i', count') => steps n' code opcode i' count'
        | _ => None
        end
      else None
  end.

(** The count of [opcode] in [code]: the loop from [i = 0], [count = 0]. *)
Definition count_opcode (fuel : nat) (code opcode : string) : run Z :=
  walk fuel code opcode 0 0.

(** ** Vocabulary shared by the scripts *)

Inductive severity := CRITICAL | HIGH | MEDIUM | LOW.

(** The three-level gate of [safeguard.py], also the [riskLevel] of
    [contract_scanner.py]. *)
Inductive decision := APPROVE | REVIEW | DENY.

(** The five-level verdict of [safeguard_scan.py]. *)
Inductive verdict := SAFE | LOW_RISK | MEDIUM_RISK | HIGH_RISK | BLOCK.

Global Instance severity_eq_dec : EqDecision severity.
Proof. solve_decision. Defined.
Global Instance decision_eq_dec : EqDecision decision.
Proof. solve_decision. Defined.
Global Instance verdict_eq_dec : EqDecision verdict.
Proof. solve_decision. Defined.

(** ** [scripts/contract_scanner.py]

    Descriptions and notes are inert text, kept as the source writes them. *)

Module ContractScanner.

Record pattern := Pattern {
  p_name : string;
  p_opcode : string;
  p_severity : severity;
  p_description : string
}.

Definition PATTERNS : list pattern := [
  Pattern "selfdestruct" "ff" CRITICAL
    "Contract can self-destruct, draining all funds";
  Pattern "delegatecall" "f4" HIGH
    "Uses delegatecall — can execute arbitrary code in contract context";
  Pattern "callcode" "f2" HIGH
    "Uses deprecated CALLCODE — potential proxy attack vector";
  Pattern "create2" "f5" MEDIUM
    "Uses CREATE2 — can deploy contracts at predictable addresses";
  Pattern "tx.origin" "32" MEDIUM
    "Uses tx.origin — vulnerable to phishing attacks"
].

Record selector_info := SelectorInfo {
  s_name : string;
  s_risk : severity;
  s_note : string
}.

(** A dict literal, iterated in insertion order. *)
Definition SUSPICIOUS_SELECTORS : list (string * selector_info) := [
  ("0xa9059cbb", SelectorInfo "transfer(address,uint256)" LOW
                   "Standard ERC20 — check context");
  ("0x095ea7b3", SelectorInfo "approve(address,uint256)" MEDIUM
                   "Approval — check for unlimited approvals");
  ("0x70a08231", SelectorInfo "balanceOf(address)" LOW "Read-only");
  ("0x23b872dd", SelectorInfo "transferFrom(address,address,uint256)" MEDIUM
                   "Requires prior approval");
  ("0x42966c68", SelectorInfo "burn(uint256)" HIGH
                   "Token burn — irreversible");
  ("0x715018a6", SelectorInfo "renounceOwnership()" HIGH
                   "Ownership renounced — no admin recovery");
  ("0xf2fde38b", SelectorInfo "transferOwnership(address)" HIGH
                   "Ownership transfer — check recipient")
].

(** A finding dict; the synthetic empty-contract finding has no
    ["occurrences"] key. *)
Record finding := Finding {
  f_name : string;
  f_severity : severity;
  f_description : string;
  f_occurrences : option Z
}.

(** [{**info, "selector": selector}] *)
Record selector_hit := SelectorHit {
  h_info : selector_info;
  h_selector : string
}.

Record report := Report {
  bytecodeSize : Z;
  riskScore : Z;
  riskLevel : decision;
  findings : list finding;
  knownSelectors : list selector_hit
}.

(** [scan_bytecode] returns a bare list of findings for an empty body
    and a report dict otherwise. *)
Inductive result :=
| FindingList (l : list finding)
| ReportDict (r : report).

Definition severity_scores (s : severity) : Z :=
  match s with CRITICAL => 40 | HIGH => 20 | MEDIUM => 10 | LOW => 5 end.

(** The [for pattern in PATTERNS] loop, threading [findings]. *)
Fixpoint scan_patterns (fuel : nat) (code : string) (ps : list pattern)
    (findings : list finding) : run (list finding) :=
  match ps with
  | [] => Ok findings
  | p :: ps' =>
      count ← count_opcode fuel code (Py.lower (p_opcode p));
      let findings :=
        if 0 <? count
        then findings ++
               [Finding (p_name p) (p_severity p) (p_description p) (Some count)]
        else findings in
      scan_patterns fuel code ps' findings
  end.

Definition find_selectors (code : string) : list selector_hit :=
  omap (fun '(selector, info) =>
          let sel_hex := Py.slice_from selector 2 in
          if Py.contains sel_hex code
          then Some (SelectorHit info selector) else None)
       SUSPICIOUS_SELECTORS.

Definition risk_score_of (findings : list finding) : Z :=
  foldr Z.add 0
    ((fun f => severity_scores (f_severity f) * default 1 (f_occurrences f))
       <$> findings).

Definition risk_level_of (risk_score : Z) : decision :=
  if 60 <=? risk_score then DENY
  else if 20 <=? risk_score then REVIEW
  else APPROVE.

Definition empty_contract : finding :=
  Finding "empty_contract" CRITICAL
    "Contract has no bytecode (EOA or destroyed)" None.

Definition strip_prefix (bytecode : string) : string :=
  if Py.startswith bytecode "0x" then Py.slice_from bytecode 2 else bytecode.

Definition scan_bytecode (fuel : nat) (bytecode : string) : run result :=
  let code := strip_prefix bytecode in
  if Py.len code <? 2 then Ok (FindingList [empty_contract])
  else
    findings ← scan_patterns fuel code PATTERNS [];
    let selectors_found := find_selectors code in
    let risk_score := risk_score_of findings in
    let risk_level := risk_level_of risk_score in
    Ok (ReportDict
          (Report (Py.len code / 2) risk_score risk_level findings
                  selectors_found)).

End ContractScanner.

(** ** [scripts/safeguard_scan.py] *)

Module SafeguardScan.

Record pattern := Pattern {
  p_opcode : string;
  p_name : string;
  p_severity : severity;
  p_score : Z;
  p_desc : string
}.

Definition PATTERNS : list pattern := [
  Pattern "ff" "selfdestruct" CRITICAL 40
    "Can self-destruct, destroying contract and draining ETH balance";
  Pattern "f4" "delegatecall" HIGH 20
    "Executes external code in this contract's storage context (proxy/upgrade risk)";
  Pattern "f2" "callcode" HIGH 20
    "Deprecated CALLCODE — potential proxy attack vector";
  Pattern "f5" "create2" MEDIUM 10
    "CREATE2 — deploys contracts at predictable addresses (metamorphic risk)";
  Pattern "32" "tx.origin" MEDIUM 10
    "Uses tx.origin — vulnerable to phishing/relay attacks"
].

Record selector_info := SelectorInfo {
  s_name : string;
  s_risk : severity;
  s_note : string
}.

Definition SELECTORS : list (string * selector_info) := [
  ("095ea7b3", SelectorInfo "approve(address,uint256)" MEDIUM
                 "Check for unlimited approvals (type(uint256).max)");
  ("42966c68", SelectorInfo "burn(uint256)" HIGH "Token burn — irreversible");
  ("715018a6", SelectorInfo "renounceOwnership()" HIGH
                 "Ownership renounced — no admin recovery possible");
  ("f2fde38b", SelectorInfo "transferOwnership(address)" HIGH
                 "Ownership transfer — verify recipient");
  ("3659cfe6", SelectorInfo "upgradeTo(address)" HIGH
                 "Proxy upgrade — contract logic can change");
  ("4f1ef286", SelectorInfo "upgradeToAndCall(address,bytes)" HIGH
                 "Proxy upgrade + call — logic change + execution")
].

Record finding := Finding {
  f_name : string;
  f_severity : severity;
  f_desc : string;
  f_count : Z
}.

(** [{"selector": "0x"+sel, **info}] *)
Record selector_hit := SelectorHit {
  h_selector : string;
  h_info : selector_info
}.

(** The result dict; the empty-contract result has neither
    ["selectors"] nor ["bytecode_size"]. *)
Record result := Result {
  findings : list finding;
  selectors : option (list selector_hit);
  risk_score : Z;
  bytecode_size : option Z
}.

(** The [for p in PATTERNS] loop, threading [findings] and
    [total_score]. *)
Fixpoint scan_patterns (fuel : nat) (code : string) (ps : list pattern)
    (findings : list finding) (total_score : Z) : run (list finding * Z) :=
  match ps with
  | [] => Ok (findings, total_score)
  | p :: ps' =>
      count ← count_opcode fuel code (Py.lower (p_opcode p));
      if 0 <? count then
        scan_patterns fuel code ps'
          (findings ++ [Finding (p_name p) (p_severity p) (p_desc p) count])
          (total_score + p_score p * count)
      else scan_patterns fuel code ps' findings total_score
  end.

Definition find_selectors (code : string) : list selector_hit :=
  omap (fun '(sel, info) =>
          if Py.contains sel (Py.lower code)
          then Some (SelectorHit ("0x" +:+ sel) info) else None)
       SELECTORS.

Definition empty_contract : finding :=
  Finding "empty_contract" CRITICAL "No bytecode (EOA or destroyed)" 1.

Definition strip_prefix (code_hex : string) : string :=
  if Py.startswith code_hex "0x" then Py.slice_from code_hex 2 else code_hex.

Definition scan_bytecode (fuel : nat) (code_hex : string) : run result :=
  let code := strip_prefix code_hex in
  if Py.len code <? 2 then Ok (Result [empty_contract] None 100 None)
  else
    '(findings, total_score) ← scan_patterns fuel code PATTERNS [] 0;
    let selectors_found := find_selectors code in
    Ok (Result findings (Some selectors_found) (Z.min total_score 100)
               (Some (Py.len code / 2))).

(** The score thresholds of [scan_address] (and of [main]). *)
Definition verdict_of_score (score : Z) : verdict :=
  if score =? 0 then SAFE
  else if score <? 20 then LOW_RISK
  else if score <? 40 then MEDIUM_RISK
  else if score <? 60 then HIGH_RISK
  else BLOCK.

End SafeguardScan.

(** ** More Python primitives: [repr] of a list of strings, [sorted] *)

Module PyRepr.

Definition squote : ascii := ascii_of_N 39.
Definition dquote : ascii := ascii_of_N 34.

Definition nibble (n : Z) : ascii :=
  ascii_of_N (Z.to_N (if n <? 10 then 48 + n else 87 + n)).

Definition printable (c : ascii) : bool :=
  Py.between 32 126 c || (Py.between 161 255 c && negb (Py.code c =? 173)).

(** The escape of one character inside quotes [q]. *)
Definition escape (q c : ascii) : string :=
  if Ascii.eqb c q || (Py.code c =? 92) then String "\"%char (String c "")
  else if Py.code c =? 9 then "\t"
  else if Py.code c =? 10 then "\n"
  else if Py.code c =? 13 then "\r"
  else if printable c then String c ""
  else String "\"%char
         (String "x"%char
            (String (nibble (Py.code c / 16))
               (String (nibble (Py.code c mod 16)) ""))).

Fixpoint escape_all (q : ascii) (s : string) : string :=
  match s with
  | EmptyString => EmptyString
  | String c r => escape q c +:+ escape_all q r
  end.

(** [repr(s)]: single quotes, unless [s] has a single quote and no
    double quote. *)
Definition repr_str (s : string) : string :=
  let q := if Py.contains (String squote "") s
              && negb (Py.contains (String dquote "") s)
           then dquote else squote in
  String q (escape_all q s +:+ String q "").

Fixpoint join (sep : string) (l : list string) : string :=
  match l with
  | [] => ""
  | [x] => x
  | x :: r => x +:+ sep +:+ join sep r
  end.

(** [repr(l)] for a list of strings. *)
Definition repr_list (l : list string) : string :=
  "[" +:+ join ", " (repr_str <$> l) +:+ "]".

(** [sorted(X)] for a set of strings. *)
Definition sorted (X : gset string) : list string :=
  merge_sort String.le (elements X).

End PyRepr.

(** ** [scripts/safeguard.py] *)

Module Safeguard.

(** The name lists of the ["allowlist"] and ["denylist"] dicts; a
    missing key is [None]. *)
Record name_lists := NameLists {
  skill_authors : option (list string);
  skill_sources : option (list string);
  addresses : option (list string)
}.

(** The empty dict [{}] that [policy.get("allowlist", {})] falls back
    to. *)
Definition no_lists : name_lists := NameLists None None None.

Record Policy := {
  allowlist : option name_lists;
  denylist : option name_lists;
  risky_permissions : option (list string);
  block_new_skills : option bool;
  mainnet_allowed : option bool;
  mainnet_max_usdc : option Q;
  max_single_usdc : option Q
}.

Record Skill := {
  author : option string;
  source : option string;
  requested_permissions : option (list string)
}.

(** A payment request; [to] is [None] when the key is missing or
    null. *)
Record Payment := {
  chain : option string;
  amount : option Q;
  to : option string
}.

Definition order (d : decision) : Z :=
  match d with APPROVE => 0 | REVIEW => 1 | DENY => 2 end.

Definition max_decision (a b : decision) : decision :=
  if order a >=? order b then a else b.

(** Truth value of a string, a set, a float. *)
Definition str_true (s : string) : bool := negb (String.eqb s "").
Definition set_true (X : gset string) : bool := bool_decide (X ≠ ∅).
Definition float_true (q : Q) : bool := negb (Qeq_bool q 0).

(** [a > b] on amounts. *)
Definition gt (a b : Q) : bool := negb (Qle_bool a b).

(** [reasons or ["OK"]] *)
Definition or_ok (reasons : list string) : list string :=
  match reasons with [] => ["OK"] | _ => reasons end.

Definition eval_skill (skill : Skill) (policy : Policy)
    : decision * list string :=
  let reasons : list string := [] in
  let d := APPROVE in
  let allow_authors : gset string :=
    list_to_set (default [] (skill_authors (default no_lists (allowlist policy)))) in
  let deny_authors : gset string :=
    list_to_set (default [] (skill_authors (default no_lists (denylist policy)))) in
  let allow_sources : gset string :=
    list_to_set (default [] (skill_sources (default no_lists (allowlist policy)))) in
  let deny_sources : gset string :=
    list_to_set (default [] (skill_sources (default no_lists (denylist policy)))) in
  let author := Py.strip (default "" (author skill)) in
  let source := Py.strip (default "" (source skill)) in
  if bool_decide (author ∈ deny_authors) || bool_decide (source ∈ deny_sources)
  then (DENY, ["Denied author/source"])
  else
    let '(d, reasons) :=
      if str_true author && bool_decide (author ∉ allow_authors)
         && set_true allow_authors
      then (REVIEW, reasons ++ ["Author not in allowlist"])
      else (d, reasons) in
    let '(d, reasons) :=
      if str_true source && bool_decide (source ∉ allow_sources)
         && set_true allow_sources
      then (max_decision d REVIEW, reasons ++ ["Source not in allowlist"])
      else (d, reasons) in
    let risky : gset string :=
      list_to_set (default [] (requested_permissions skill))
      ∩ list_to_set (default [] (risky_permissions policy)) in
    let '(d, reasons) :=
      if set_true risky
      then (max_decision d REVIEW,
            reasons ++ ["Risky permissions: "
                        +:+ PyRepr.repr_list (PyRepr.sorted risky)])
      else (d, reasons) in
    let '(d, reasons) :=
      if default false (block_new_skills policy)
      then (max_decision d REVIEW, reasons ++ ["Block new skills enabled"])
      else (d, reasons) in
    (d, or_ok reasons).

Definition eval_payment (tx : Payment) (policy : Policy)
    : decision * list string :=
  let reasons : list string := [] in
  let d := APPROVE in
  let chain := Py.lower (default "" (chain tx)) in
  let amount := default 0%Q (amount tx) in
  let to_addr := Py.lower (default "" (to tx)) in
  let deny_addrs : gset string :=
    list_to_set (Py.lower <$> default [] (addresses (default no_lists (denylist policy)))) in
  let allow_addrs : gset string :=
    list_to_set (Py.lower <$> default [] (addresses (default no_lists (allowlist policy)))) in
  if bool_decide (to_addr ∈ deny_addrs)
  then (DENY, ["Recipient denylisted"])
  else
    let '(d, reasons) :=
      if set_true allow_addrs && bool_decide (to_addr ∉ allow_addrs)
      then (max_decision d REVIEW, reasons ++ ["Recipient not in allowlist"])
      else (d, reasons) in
    (* the mainnet block either returns or falls through *)
    let mainnet : (decision * list string) + (decision * list string) :=
      if String.eqb chain "mainnet" then
        if negb (default false (mainnet_allowed policy))
        then inl (DENY, ["Mainnet disabled"])
        else
          let max_mainnet := default 0%Q (mainnet_max_usdc policy) in
          if gt amount max_mainnet
          then inr (max_decision d REVIEW,
                    reasons ++ ["Exceeds mainnet threshold"])
          else inr (d, reasons)
      else inr (d, reasons) in
    match mainnet with
    | inl returned => returned
    | inr (d, reasons) =>
        let max_single := default 0%Q (max_single_usdc policy) in
        let '(d, reasons) :=
          if float_true max_single && gt amount max_single
          then (max_decision d REVIEW, reasons ++ ["Exceeds single-tx limit"])
          else (d, reasons) in
        (d, or_ok reasons)
    end.

End Safeguard.

(** ** [scripts/safeguard.py] on requests as they are loaded

    [Safeguard.eval_skill] and [Safeguard.eval_payment] above take a
    request whose fields have the types the code expects.  Here the
    fields are the JSON values of the request file, and reading a field
    of another type raises; the policy is the typed one. *)

Module SafeguardRequest.
Import Json Safeguard.

Record Skill := {
  author : option json;
  source : option json;
  requested_permissions : option json
}.

Record Payment := {
  chain : option json;
  amount : option json;
  to : option json
}.

(** Lines 31-32: [skill.get("author", "").strip()] and the same for the
    source. *)
Definition read_skill (skill : Skill) : outcome (string * string) :=
  author ← Json.strip (default (JStr "") (author skill));
  source ← Json.strip (default (JStr "") (source skill));
  Returns (author, source).

Definition eval_skill (skill : Skill) (policy : Policy)
    : outcome (decision * list string) :=
  let reasons : list string := [] in
  let d := APPROVE in
  let allow_authors : gset string :=
    list_to_set (default [] (skill_authors (default no_lists (allowlist policy)))) in
  let deny_authors : gset string :=
    list_to_set (default [] (skill_authors (default no_lists (denylist policy)))) in
  let allow_sources : gset string :=
    list_to_set (default [] (skill_sources (default no_lists (allowlist policy)))) in
  let deny_sources : gset string :=
    list_to_set (default [] (skill_sources (default no_lists (denylist policy)))) in
  '(author, source) ← read_skill skill;
  if bool_decide (author ∈ deny_authors) || bool_decide (source ∈ deny_sources)
  then Returns (DENY, ["Denied author/source"])
  else
    let '(d, reasons) :=
      if str_true author && bool_decide (author ∉ allow_authors)
         && set_true allow_authors
      then (REVIEW, reasons ++ ["Author not in allowlist"])
      else (d, reasons) in
    let '(d, reasons) :=
      if str_true source && bool_decide (source ∉ allow_sources)
         && set_true allow_sources
      then (max_decision d REVIEW, reasons ++ ["Source not in allowlist"])
      else (d, reasons) in
    requested ← Json.str_set (default (JList []) (requested_permissions skill));
    let risky : gset string :=
      requested ∩ list_to_set (default [] (risky_permissions policy)) in
    let '(d, reasons) :=
      if set_true risky
      then (max_decision d REVIEW,
            reasons ++ ["Risky permissions: "
                        +:+ PyRepr.repr_list (PyRepr.sorted risky)])
      else (d, reasons) in
    let '(d, reasons) :=
      if default false (block_new_skills policy)
      then (max_decision d REVIEW, reasons ++ ["Block new skills enabled"])
      else (d, reasons) in
    Returns (d, or_ok reasons).

(** Lines 56-58: [tx.get("chain", "").lower()],
    [float(tx.get("amount", 0))] and [(tx.get("to", "") or "").lower()],
    in this order. *)
Definition read_payment (tx : Payment)
    : outcome (string * PyFloat.float * string) :=
  chain ← Json.lower (default (JStr "") (chain tx));
  amount ← Json.float (default (JInt 0) (amount tx));
  to_addr ← Json.lower (Json.or (default (JStr "") (to tx)) (JStr ""));
  Returns (chain, amount, to_addr).

Definition eval_payment (tx : Payment) (policy : Policy)
    : outcome (decision * list string) :=
  let reasons : list string := [] in
  let d := APPROVE in
  '(chain, amount, to_addr) ← read_payment tx;
  let deny_addrs : gset string :=
    list_to_set (Py.lower <$> default [] (addresses (default no_lists (denylist policy)))) in
  let allow_addrs : gset string :=
    list_to_set (Py.lower <$> default [] (addresses (default no_lists (allowlist policy)))) in
  if bool_decide (to_addr ∈ deny_addrs)
  then Returns (DENY, ["Recipient denylisted"])
  else
    let '(d, reasons) :=
      if set_true allow_addrs && bool_decide (to_addr ∉ allow_addrs)
      then (max_decision d REVIEW, reasons ++ ["Recipient not in allowlist"])
      else (d, reasons) in
    (* the mainnet block either returns or falls through *)
    let mainnet : (decision * list string) + (decision * list string) :=
      if String.eqb chain "mainnet" then
        if negb (default false (mainnet_allowed policy))
        then inl (DENY, ["Mainnet disabled"])
        else
          let max_mainnet := PyFloat.Finite (default 0%Q (mainnet_max_usdc policy)) in
          if PyFloat.gt amount max_mainnet
          then inr (max_decision d REVIEW,
                    reasons ++ ["Exceeds mainnet threshold"])
          else inr (d, reasons)
      else inr (d, reasons) in
    match mainnet with
    | inl returned => Returns returned
    | inr (d, reasons) =>
        let max_single := PyFloat.Finite (default 0%Q (max_single_usdc policy)) in
        let '(d, reasons) :=
          if PyFloat.truthy max_single && PyFloat.gt amount max_single
          then (max_decision d REVIEW, reasons ++ ["Exceeds single-tx limit"])
          else (d, reasons) in
        Returns (d, or_ok reasons)
    end.

(** A typed request as the request file holds it. *)
Definition of_skill (skill : Safeguard.Skill) : Skill :=
  {| author := JStr <$> Safeguard.author skill;
     source := JStr <$> Safeguard.source skill;
     requested_permissions :=
       (fun l => JList (JStr <$> l)) <$> Safeguard.requested_permissions skill |}.

Definition of_payment (tx : Safeguard.Payment) : Payment :=
  {| chain := JStr <$> Safeguard.chain tx;
     amount := (fun q => JFloat (PyFloat.Finite q)) <$> Safeguard.amount tx;
     to := JStr <$> Safeguard.to tx |}.

End SafeguardRequest.

(** ** [scripts/spendguard.py] *)

Module Spendguard.

Record Policy := {
  deny_recipients : option (list string);
  max_single_usdc : option Q;
  category_limits_usdc : option (gmap string Q);
  daily_limit_usdc : option Q;
  known_recipients : option (list string)
}.

(** A CSV row; ["amount_usdc"] and ["date"] are required keys, carried
    here as the float and the date that [float] and [parse_date] make
    of them (a date is its day number). *)
Record Tx := {
  amount_usdc : Q;
  category : option string;
  recipient : option string;
  date : Z
}.

Definition gt (a b : Q) : bool := negb (Qle_bool a b).

(** [daily_spend] is a [defaultdict(float)]: reading a missing date
    stores [0.0] under it.  The function returns the status, the
    reasons and the dict as it leaves it. *)
Definition evaluate_transaction (tx : Tx) (policy : Policy)
    (daily_spend : gmap Z Q) : decision * list string * gmap Z Q :=
  let reasons : list string := [] in
  let amount := amount_usdc tx in
  let category := default "uncategorized" (category tx) in
  let recipient := default "unknown" (recipient tx) in
  let date := date tx in
  if bool_decide (recipient ∈ (list_to_set (default [] (deny_recipients policy)) : gset string))
  then (DENY, ["recipient_on_deny_list"], daily_spend)
  else
    let max_single := max_single_usdc policy in
    let reasons :=
      match max_single with
      | Some m => if gt amount m then reasons ++ ["over_single_limit"] else reasons
      | None => reasons
      end in
    let cat_limits := default ∅ (category_limits_usdc policy) in
    let reasons :=
      match cat_limits !! category with
      | Some l => if gt amount l then reasons ++ ["over_category_limit"] else reasons
      | None => reasons
      end in
    let daily_limit := daily_limit_usdc policy in
    let '(reasons, daily_spend) :=
      match daily_limit with
      | Some l =>
          let spent := default 0%Q (daily_spend !! date) in
          let daily_spend :=
            match daily_spend !! date with
            | Some _ => daily_spend
            | None => <[date := 0%Q]> daily_spend
            end in
          if gt (spent + amount)%Q l
          then (reasons ++ ["over_daily_limit"], daily_spend)
          else (reasons, daily_spend)
      | None => (reasons, daily_spend)
      end in
    let known : gset string := list_to_set (default [] (known_recipients policy)) in
    let reasons :=
      if bool_decide (known ≠ ∅) && bool_decide (recipient ∉ known)
      then reasons ++ ["unknown_recipient"] else reasons in
    if bool_decide ("over_single_limit" ∈ reasons)
       || bool_decide ("over_daily_limit" ∈ reasons)
    then (REVIEW, reasons, daily_spend)
    else if bool_decide ("over_category_limit" ∈ reasons)
            || bool_decide ("unknown_recipient" ∈ reasons)
    then (REVIEW, reasons, daily_spend)
    else (APPROVE, reasons, daily_spend).

End Spendguard.

(** ** Vocabulary of the statements *)

Module Gate.
Import Safeguard.

(** The lists a policy holds, a missing key read as the empty list. *)
Definition deny_addresses (p : Policy) : list string :=
  default [] (addresses (default no_lists (denylist p))).
Definition allow_addresses (p : Policy) : list string :=
  default [] (addresses (default no_lists (allowlist p))).
Definition deny_authors (p : Policy) : list string :=
  default [] (skill_authors (default no_lists (denylist p))).
Definition allow_authors (p : Policy) : list string :=
  default [] (skill_authors (default no_lists (allowlist p))).
Definition deny_sources (p : Policy) : list string :=
  default [] (skill_sources (default no_lists (denylist p))).

(** The author and the source as [eval_skill] compares them, the
    recipient and the chain as [eval_payment] compares them. *)
Definition author_of (s : Skill) : string := Py.strip (default "" (author s)).
Definition source_of (s : Skill) : string := Py.strip (default "" (source s)).
Definition recipient_of (tx : Payment) : string := Py.lower (default "" (to tx)).
Definition chain_of (tx : Payment) : string := Py.lower (default "" (chain tx)).

(** The policy with every missing field written out as the default the
    code reads for it. *)
Definition fill_lists (l : option name_lists) : option name_lists :=
  let l := default no_lists l in
  Some (NameLists (Some (default [] (skill_authors l)))
                  (Some (default [] (skill_sources l)))
                  (Some (default [] (addresses l)))).

Definition with_defaults (p : Policy) : Policy :=
  {| allowlist := fill_lists (allowlist p);
     denylist := fill_lists (denylist p);
     risky_permissions := Some (default [] (risky_permissions p));
     block_new_skills := Some (default false (block_new_skills p));
     mainnet_allowed := Some (default false (mainnet_allowed p));
     mainnet_max_usdc := Some (default 0%Q (mainnet_max_usdc p));
     max_single_usdc := Some (default 0%Q (max_single_usdc p)) |}.

(** The single-transaction ceiling is missing or zero. *)
Definition single_limit_unset (p : Policy) : Prop :=
  match max_single_usdc p with
  | None => True
  | Some q => (q == 0)%Q
  end.

(** The author check as the specification words it: an author outside
    a non-empty allow-list, with neither author nor source denied,
    escalates to at least REVIEW and raises the allow-list reason. *)
Definition author_check (skill : Skill) (policy : Policy) : Prop :=
  allow_authors policy <> [] ->
  author_of skill ∉ allow_authors policy ->
  author_of skill ∉ deny_authors policy ->
  source_of skill ∉ deny_sources policy ->
  order REVIEW <= order (eval_skill skill policy).1
  /\ "Author not in allowlist" ∈ (eval_skill skill policy).2.

(** An incomplete policy as the specification words it: without a
    single-transaction ceiling no payment is approved. *)
Definition incomplete_policy_blocks (tx : Payment) (policy : Policy) : Prop :=
  single_limit_unset policy -> (eval_payment tx policy).1 <> APPROVE.

(** The policy without its allow-list of authors. *)
Definition without_author_allowlist (p : Policy) : Policy :=
  {| allowlist :=
       (fun l => NameLists None (skill_sources l) (addresses l)) <$> allowlist p;
     denylist := denylist p;
     risky_permissions := risky_permissions p;
     block_new_skills := block_new_skills p;
     mainnet_allowed := mainnet_allowed p;
     mainnet_max_usdc := mainnet_max_usdc p;
     max_single_usdc := max_single_usdc p |}.




(** A call that ends in DENY. *)
Definition denied (r : outcome (decision * list string)) : Prop :=
  exists reasons, r = Returns (DENY, reasons).



End Gate.

(** The score formula of the specification over the findings of
    [safeguard_scan.py], with the severity weights of
    [contract_scanner.py]. *)
Definition weighted_sum (findings : list SafeguardScan.finding) : Z :=
  foldr Z.add 0
    ((fun f => ContractScanner.severity_scores (SafeguardScan.f_severity f)
               * SafeguardScan.f_count f) <$> findings).

(** Well-formed bytecode: hex digits only. *)
Definition is_hex (c : ascii) : bool :=
  match Py.hex_digit c with Some _ => true | None => false end.

Fixpoint all_hex (s : string) : bool :=
  match s with
  | EmptyString => true
  | String c r => is_hex c && all_hex r
  end.

(** The rank of a five-level verdict, SAFE lowest. *)
Definition verdict_rank (v : verdict) : Z :=
  match v with
  | SAFE => 0 | LOW_RISK => 1 | MEDIUM_RISK => 2 | HIGH_RISK => 3 | BLOCK => 4
  end.

(** What a finding of either scanner says: name, severity, count. *)
Definition ContractScanner_finding_view (f : ContractScanner.finding)
    : string * severity * Z :=
  (ContractScanner.f_name f, ContractScanner.f_severity f,
   default 1 (ContractScanner.f_occurrences f)).

Definition SafeguardScan_finding_view (f : SafeguardScan.finding)
    : string * severity * Z :=
  (SafeguardScan.f_name f, SafeguardScan.f_severity f, SafeguardScan.f_count f).

(** The weighted sum of the score over such views. *)
Definition view_sum (l : list (string * severity * Z)) : Z :=
  foldr Z.add 0
    ((fun v => ContractScanner.severity_scores v.1.2 * v.2) <$> l).

(** [decision(rank)] of [safeguard.py]: the list
    [["APPROVE", "REVIEW", "DENY"]] indexed by [rank]; a negative rank
    counts from the end, and [None] stands for the IndexError of a rank
    out of range. *)
Definition decision_of_rank (rank : Z) : option decision :=
  let table := [APPROVE; REVIEW; DENY] in
  let n := Z.of_nat (length table) in
  if (0 <=? rank) && (rank <? n) then table !! Z.to_nat rank
  else if (- n <=? rank) && (rank <? 0) then table !! Z.to_nat (rank + n)
  else None.

(** ** [scripts/spendguard.py] with the arithmetic of floats

    [Spendguard.evaluate_transaction] above adds the amount to the
    spend of the day as an exact rational.  Here the amount and the
    spend are floats and the sum is rounded as Python rounds it; the
    limits of the policy are the numbers of the policy file, with which
    a float is compared exactly. *)

Module SpendguardFloat.
Import Spendguard.

Record Tx := {
  amount_usdc : PyFloat.float;
  category : option string;
  recipient : option string;
  date : Z
}.

(** [a > limit] *)
Definition gt (a : PyFloat.float) (limit : Q) : bool :=
  PyFloat.gt a (PyFloat.Finite limit).

Definition evaluate_transaction (tx : Tx) (policy : Policy)
    (daily_spend : gmap Z PyFloat.float)
    : decision * list string * gmap Z PyFloat.float :=
  let reasons : list string := [] in
  let amount := amount_usdc tx in
  let category := default "uncategorized" (category tx) in
  let recipient := default "unknown" (recipient tx) in
  let date := date tx in
  if bool_decide (recipient ∈ (list_to_set (default [] (deny_recipients policy)) : gset string))
  then (DENY, ["recipient_on_deny_list"], daily_spend)
  else
    let max_single := max_single_usdc policy in
    let reasons :=
      match max_single with
      | Some m => if gt amount m then reasons ++ ["over_single_limit"] else reasons
      | None => reasons
      end in
    let cat_limits := default ∅ (category_limits_usdc policy) in
    let reasons :=
      match cat_limits !! category with
      | Some l => if gt amount l then reasons ++ ["over_category_limit"] else reasons
      | None => reasons
      end in
    let daily_limit := daily_limit_usdc policy in
    let '(reasons, daily_spend) :=
      match daily_limit with
      | Some l =>
          let spent := default (PyFloat.Finite 0) (daily_spend !! date) in
          let daily_spend :=
            match daily_spend !! date with
            | Some _ => daily_spend
            | None => <[date := PyFloat.Finite 0]> daily_spend
            end in
          if gt (PyFloat.add spent amount) l
          then (reasons ++ ["over_daily_limit"], daily_spend)
          else (reasons, daily_spend)
      | None => (reasons, daily_spend)
      end in
    let known : gset string := list_to_set (default [] (known_recipients policy)) in
    let reasons :=
      if bool_decide (known ≠ ∅) && bool_decide (recipient ∉ known)
      then reasons ++ ["unknown_recipient"] else reasons in
    if bool_decide ("over_single_limit" ∈ reasons)
       || bool_decide ("over_daily_limit" ∈ reasons)
    then (REVIEW, reasons, daily_spend)
    else if bool_decide ("over_category_limit" ∈ reasons)
            || bool_decide ("unknown_recipient" ∈ reasons)
    then (REVIEW, reasons, daily_spend)
    else (APPROVE, reasons, daily_spend).

End SpendguardFloat.

(** ** [scripts/spendguard.py]: the loop of [main]

    The rows of the CSV file are evaluated in order against the running
    [daily_spend], a [defaultdict(float)]; every row, whatever its
    status, is then added to the spend of its date, a float sum.  A
    result keeps the row with its status and reasons.  The summary
    counts the statuses (its rounded [total_usdc] is left out). *)

Module SpendguardMain.
Import Spendguard SpendguardFloat.

Record result := Result {
  r_tx : Tx;
  r_status : decision;
  r_reasons : list string
}.

Fixpoint run_rows (rows : list Tx) (policy : Policy)
    (daily_spend : gmap Z PyFloat.float) (results : list result)
    : list result * gmap Z PyFloat.float :=
  match rows with
  | [] => (results, daily_spend)
  | tx :: rest =>
      let '(status, reasons, daily_spend) :=
        evaluate_transaction tx policy daily_spend in
      let amount := amount_usdc tx in
      let date := date tx in
      let daily_spend :=
        <[date := PyFloat.add (default (PyFloat.Finite 0) (daily_spend !! date))
                              amount]> daily_spend in
      run_rows rest policy daily_spend (results ++ [Result tx status reasons])
  end.

Record summary := Summary {
  total : Z;
  approve : Z;
  review : Z;
  deny : Z
}.

Definition count_status (s : decision) (results : list result) : Z :=
  Z.of_nat (length (filter (fun r => r_status r = s) results)).

Definition summarize (results : list result) : summary :=
  {| total := Z.of_nat (length results);
     approve := count_status APPROVE results;
     review := count_status REVIEW results;
     deny := count_status DENY results |}.

End SpendguardMain.

(** The amounts of the rows dated [d], added one after the other, in
    the order of the rows, to what the date had [spent]. *)
Fixpoint spent_on (d : Z) (rows : list SpendguardFloat.Tx)
    (spent : PyFloat.float) : PyFloat.float :=
  match rows with
  | [] => spent
  | tx :: rest =>
      spent_on d rest
        (if bool_decide (SpendguardFloat.date tx = d)
         then PyFloat.add spent (SpendguardFloat.amount_usdc tx)
         else spent)
  end.

(** ** [scripts/safeguard_scan.py]: [scan_address], [scan_tx] and the
    verdict of [main]

    The RPC endpoint is a parameter: [eth_getCode address] is what
    [rpc_call("eth_getCode", ...)] returns for the address, [None] when
    every endpoint failed; [eth_getTransactionByHash] likewise. *)

Module SafeguardAddress.
Import SafeguardScan.

Record known := Known { k_name : string; k_chain : string }.

Definition KNOWN_SAFE : list (string * known) := [
  ("0x036cbd53842c5426634e7929541ec2318f3dcf7e", Known "Circle USDC" "Base Sepolia");
  ("0xa0b86991c6218b36c1d19d4a2e9eb0ce3606eb48", Known "Circle USDC" "Ethereum Mainnet");
  ("0x833589fcd6edb6e08f4c7c32d4f71b54bda02913", Known "Circle USDC" "Base Mainnet");
  ("0x3fc91a3afd70395cd496c647d5a6cc9d4b2b7fad", Known "Uniswap Universal Router" "Multi");
  ("0x5051c61c62bf59865638d9b459363308d8112bd1", Known "EscrowProof v2 (hackathon)" "Base Sepolia");
  ("0x24a557da76636587deaee52cfe25fc8163ba6a49", Known "ReputationPassport (hackathon)" "Base Sepolia");
  ("0x9a4c58eb135512e63baafa7c87e5f79debc5711e", Known "BamboozledReceipt (hackathon)" "Base Sepolia")
].

Definition BASESCAN : string := "https://sepolia.basescan.org".

(** [d[key]] when [key in d], on a dict literal. *)
Fixpoint dict_get {A} (d : list (string * A)) (key : string) : option A :=
  match d with
  | [] => None
  | (k, v) :: rest => if String.eqb k key then Some v else dict_get rest key
  end.

Definition severity_name (s : severity) : string :=
  match s with
  | CRITICAL => "CRITICAL" | HIGH => "HIGH" | MEDIUM => "MEDIUM" | LOW => "LOW"
  end.

(** [rpc_call("eth_getCode", ...) or "0x"] *)
Definition fetch_bytecode (eth_getCode : string -> option string)
    (address : string) : string :=
  match eth_getCode address with
  | Some code => if String.eqb code "" then "0x" else code
  | None => "0x"
  end.

(** The multiplication sign of the reason format. *)
Definition times : string := String (ascii_of_N 215) "".

(** [f"[{f['severity']}] {f['name']} (×{f['count']}): {f['desc']}"] *)
Definition finding_reason (f : finding) : string :=
  "[" +:+ severity_name (f_severity f) +:+ "] " +:+ f_name f +:+ " ("
  +:+ times +:+ pretty (f_count f) +:+ "): " +:+ f_desc f.

(** [f"[{s['risk']}] {s['name']}: {s['note']}"] *)
Definition selector_reason (s : selector_hit) : string :=
  "[" +:+ severity_name (s_risk (h_info s)) +:+ "] " +:+ s_name (h_info s)
  +:+ ": " +:+ s_note (h_info s).

(** The dict [scan_address] returns: a known-safe address has [reason],
    [identity] and [chain]; a scanned one has [selectors], [reasons] and
    [bytecode_size]. *)
Record address_report := AddressReport {
  a_address : string;
  a_verdict : verdict;
  a_risk_score : Z;
  a_reason : option string;
  a_identity : option string;
  a_chain : option string;
  a_findings : list finding;
  a_selectors : option (list selector_hit);
  a_reasons : option (list string);
  a_bytecode_size : option Z;
  a_explorer : string
}.

Definition scan_address (fuel : nat) (address : string)
    (eth_getCode : string -> option string) : run address_report :=
  let addr := Py.lower address in
  match dict_get KNOWN_SAFE addr with
  | Some info =>
      Ok {| a_address := address;
            a_verdict := SAFE;
            a_risk_score := 0;
            a_reason := Some ("Known safe: " +:+ k_name info +:+ " ("
                              +:+ k_chain info +:+ ")");
            a_identity := Some (k_name info);
            a_chain := Some (k_chain info);
            a_findings := [];
            a_selectors := None;
            a_reasons := None;
            a_bytecode_size := None;
            a_explorer := BASESCAN +:+ "/address/" +:+ address |}
  | None =>
      let bytecode := fetch_bytecode eth_getCode addr in
      result ← scan_bytecode fuel bytecode;
      let score := risk_score result in
      let verdict := verdict_of_score score in
      let reasons :=
        (finding_reason <$> findings result)
        ++ (selector_reason <$> default [] (selectors result)) in
      Ok {| a_address := address;
            a_verdict := verdict;
            a_risk_score := score;
            a_reason := None;
            a_identity := None;
            a_chain := None;
            a_findings := findings result;
            a_selectors := Some (default [] (selectors result));
            a_reasons := Some reasons;
            a_bytecode_size := Some (default 0 (bytecode_size result));
            a_explorer := BASESCAN +:+ "/address/" +:+ address |}
  end.

(** The transaction dict of the RPC.  A key that is missing is [None];
    ["to"] may be there and null, [Some None], as it is for a contract
    creation.  [t_others] are the keys that [scan_tx] does not read
    (the hash, the nonce, the gas and so on). *)
Record tx_json := TxJson {
  t_from : option string;
  t_to : option (option string);
  t_value : option string;
  t_input : option string;
  t_others : list string
}.

(** The dict has no key: with a missing answer, the other case of
    [not tx]. *)
Definition tx_empty (tx : tx_json) : bool :=
  match t_from tx, t_to tx, t_value tx, t_input tx, t_others tx with
  | None, None, None, None, [] => true
  | _, _, _, _, _ => false
  end.

(** [tx.get("to") or ""] *)
Definition to_or_empty (tx : tx_json) : string :=
  match t_to tx with
  | Some (Some to) => to
  | _ => ""
  end.

(** The verdict of a transaction: that of its target contract, or one of
    the two of [scan_tx] itself. *)
Inductive tx_verdict :=
| Target (v : verdict)
| CONTRACT_CREATION
| ERROR.

Record tx_report := TxReport {
  x_tx : string;
  x_from : string;
  x_to : string;
  x_value_wei : Z;
  x_explorer : string;
  x_function : option selector_info;
  x_contract_verdict : option verdict;
  x_contract_risk_score : option Z;
  x_contract_findings : option (list finding);
  x_contract_identity : option string;
  x_verdict : tx_verdict;
  x_risk_score : Z;
  x_reasons : list string
}.

Inductive tx_result :=
| NotFound (tx : string) (reason : string)
| Scanned (r : tx_report).

Definition scan_tx (fuel : nat) (txhash : string)
    (eth_getTransactionByHash : string -> option tx_json)
    (eth_getCode : string -> option string) : run tx_result :=
  match eth_getTransactionByHash txhash with
  | None => Ok (NotFound txhash "Transaction not found")
  | Some tx =>
      if tx_empty tx then Ok (NotFound txhash "Transaction not found")
      else
      let to_addr := to_or_empty tx in
      match Py.int16 (default "0x0" (t_value tx)) with
      | None => ValueError
      | Some value =>
          let input_data := default "0x" (t_input tx) in
          let function :=
            if 10 <=? Py.len input_data
            then dict_get SELECTORS (Py.lower (Py.slice input_data 2 10))
            else None in
          let explorer := BASESCAN +:+ "/tx/" +:+ txhash in
          if negb (String.eqb to_addr "") then
            addr_scan ← scan_address fuel to_addr eth_getCode;
            Ok (Scanned
                  {| x_tx := txhash; x_from := default "" (t_from tx);
                     x_to := to_addr; x_value_wei := value;
                     x_explorer := explorer; x_function := function;
                     x_contract_verdict := Some (a_verdict addr_scan);
                     x_contract_risk_score := Some (a_risk_score addr_scan);
                     x_contract_findings := Some (a_findings addr_scan);
                     x_contract_identity := a_identity addr_scan;
                     x_verdict := Target (a_verdict addr_scan);
                     x_risk_score := a_risk_score addr_scan;
                     x_reasons := default [] (a_reasons addr_scan) |})
          else
            Ok (Scanned
                  {| x_tx := txhash; x_from := default "" (t_from tx);
                     x_to := to_addr; x_value_wei := value;
                     x_explorer := explorer; x_function := function;
                     x_contract_verdict := None;
                     x_contract_risk_score := None;
                     x_contract_findings := None;
                     x_contract_identity := None;
                     x_verdict := CONTRACT_CREATION;
                     x_risk_score := 50;
                     x_reasons := ["Transaction creates a new contract"] |})
      end
  end.

(** [main] with [--address] and [--bytecode]: the given bytecode is
    scanned and the verdict and the reasons are added to the result. *)
Definition main_bytecode (fuel : nat) (address bytecode : string)
    : run (result * string * verdict * list string) :=
  result ← scan_bytecode fuel bytecode;
  let s := risk_score result in
  let verdict :=
    if s =? 0 then SAFE
    else if s <? 20 then LOW_RISK
    else if s <? 40 then MEDIUM_RISK
    else if s <? 60 then HIGH_RISK
    else BLOCK in
  Ok (result, address, verdict, finding_reason <$> findings result).

End SafeguardAddress.

(** ** [scripts/contract_scanner.py]: [main]

    What [main] leaves in [result] before it prints it, or how it ends
    otherwise.  [eth_getCode address] is the ["result"] of the RPC
    answer, [None] when the answer has no such key. *)

Module ContractScannerMain.
Import ContractScanner.

Definition KNOWN_SAFE : list (string * string) := [
  ("0x036cbd53842c5426634e7929541ec2318f3dcf7e", "Circle USDC (Base Sepolia)");
  ("0xa0b86991c6218b36c1d19d4a2e9eb0ce3606eb48", "Circle USDC (Ethereum Mainnet)");
  ("0x833589fcd6edb6e08f4c7c32d4f71b54bda02913", "Circle USDC (Base Mainnet)");
  ("0x3fc91a3afd70395cd496c647d5a6cc9d4b2b7fad", "Uniswap Universal Router")
].

(** [data.get("result", "0x")] *)
Definition fetch_bytecode (eth_getCode : string -> option string)
    (address : string) : string :=
  default "0x" (eth_getCode address).

Record known_safe := KnownSafe {
  ks_address : string;
  ks_status : string;
  ks_identity : string;
  ks_riskLevel : decision;
  ks_riskScore : Z
}.

Inductive printed :=
| Known (k : known_safe)
| FromBytecode (r : report) (source : string)
| FromAddress (r : report) (address : string).

Inductive outcome :=
| Printed (p : printed)
| TypeError      (* item assignment on the list of the empty contract *)
| RaisedValueError
| Exit1
| NoReturn.

Definition main (fuel : nat) (arg_address arg_bytecode : option string)
    (eth_getCode : string -> option string) : outcome :=
  let address := Py.lower (default "" arg_address) in
  match SafeguardAddress.dict_get KNOWN_SAFE address with
  | Some identity =>
      Printed (Known (KnownSafe address "KNOWN_SAFE" identity APPROVE 0))
  | None =>
      let scanned (bytecode : string) (k : report -> printed) : outcome :=
        match scan_bytecode fuel bytecode with
        | Ok (ReportDict r) => Printed (k r)
        | Ok (FindingList _) => TypeError
        | ValueError => RaisedValueError
        | OutOfFuel => NoReturn
        end in
      if negb (String.eqb (default "" arg_bytecode) "") then
        scanned (default "" arg_bytecode)
                (fun r => FromBytecode r "bytecode_input")
      else if negb (String.eqb (default "" arg_address) "") then
        let bytecode := fetch_bytecode eth_getCode (default "" arg_address) in
        scanned bytecode (fun r => FromAddress r (default "" arg_address))
      else Exit1
  end.

End ContractScannerMain.

(** What a transaction scan concludes: verdict, score and reasons (a
    transaction that is not found has a verdict only). *)
Definition tx_conclusion (r : run SafeguardAddress.tx_result)
    : run (SafeguardAddress.tx_verdict * option Z * list string) :=
  res ← r;
  match res with
  | SafeguardAddress.NotFound _ _ => Ok (SafeguardAddress.ERROR, None, [])
  | SafeguardAddress.Scanned x =>
      Ok (SafeguardAddress.x_verdict x, Some (SafeguardAddress.x_risk_score x),
          SafeguardAddress.x_reasons x)
  end.

(** * Properties *)

(** A decidable closed proposition, settled by evaluation. *)
Ltac by_compute :=
  match goal with
  | |- ?P => apply (@bool_decide_unpack P _); vm_compute; exact I
  end.

(** ** The opcode walk and its fuel *)

Section Walk.

Variables code opcode : string.

(** Fuel beyond what the loop needs changes nothing. *)
Lemma walk_fuel_add (fuel k : nat) (i count : Z) :
  walk fuel code opcode i count <> OutOfFuel ->
  walk (fuel + k) code opcode i count = walk fuel code opcode i count.
Proof.
  revert i count.
  induction fuel as [|fuel IH]; intros i count Hrun; simpl in *.
  - destruct (i <? Py.len code) eqn:Hlt; [congruence|].
    destruct k; simpl; rewrite Hlt; reflexivity.
  - destruct (i <? Py.len code); [|reflexivity].
    destruct (walk_body code opcode i count) as [[i' count']| |]; auto.
Qed.

Lemma walk_steps (n m : nat) (i count i' count' : Z) :
  steps n code opcode i count = Some (i', count') ->
  walk (n + m) code opcode i count = walk m code opcode i' count'.
Proof.
  revert i count.
  induction n as [|n IH]; intros i count Hs; simpl in *.
  - congruence.
  - destruct (i <? Py.len code); [|discriminate].
    destruct (walk_body code opcode i count) as [[i1 c1]| |];
      [auto | discriminate..].
Qed.

(** While the loop is running, it has not returned. *)
Lemma steps_running (n : nat) (i count i' count' : Z) :
  steps n code opcode i count = Some (i', count') ->
  (i' <? Py.len code) = true ->
  forall k, (k <= n)%nat -> walk k code opcode i count = OutOfFuel.
Proof.
  revert i count.
  induction n as [|n IH]; intros i count Hs Hlt k Hk; simpl in Hs.
  - assert (k = O) as -> by lia.
    injection Hs as -> ->. simpl. rewrite Hlt. reflexivity.
  - destruct (i <? Py.len code) eqn:Hi; [|discriminate].
    destruct k as [|k]; simpl; rewrite Hi; [reflexivity|].
    destruct (walk_body code opcode i count) as [[i1 c1]| |];
      [|discriminate..].
    apply IH; [assumption..|lia].
Qed.

(** A loop state that comes back after some iterations never leaves
    the loop. *)
Lemma walk_cycle (p : nat) (i count : Z) :
  steps (S p) code opcode i count = Some (i, count) ->
  forall fuel, walk fuel code opcode i count = OutOfFuel.
Proof.
  intros Hs.
  assert (Hlt : (i <? Py.len code) = true).
  { simpl in Hs. destruct (i <? Py.len code); [reflexivity|discriminate]. }
  intros fuel. induction (lt_wf fuel) as [fuel _ IH].
  destruct (le_lt_dec fuel (S p)) as [Hle|Hgt].
  - eapply steps_running; eassumption.
  - replace fuel with (S p + (fuel - S p))%nat by lia.
    rewrite (walk_steps _ _ _ _ _ _ Hs). apply IH. lia.
Qed.

End Walk.

Lemma count_opcode_fuel_add (fuel k : nat) (code opcode : string) :
  count_opcode fuel code opcode <> OutOfFuel ->
  count_opcode (fuel + k) code opcode = count_opcode fuel code opcode.
Proof. apply walk_fuel_add. Qed.

Lemma ContractScanner_scan_patterns_fuel_add (fuel k : nat) (code : string)
    (ps : list ContractScanner.pattern) (fs : list ContractScanner.finding) :
  ContractScanner.scan_patterns fuel code ps fs <> OutOfFuel ->
  ContractScanner.scan_patterns (fuel + k) code ps fs
  = ContractScanner.scan_patterns fuel code ps fs.
Proof.
  revert fs. induction ps as [|p ps IH]; intros fs; simpl; [reflexivity|].
  intros Hrun.
  destruct (count_opcode fuel code (Py.lower (ContractScanner.p_opcode p)))
    as [count| |] eqn:Hc; simpl in Hrun; [| |congruence];
    rewrite count_opcode_fuel_add, Hc by congruence; simpl;
    [apply IH, Hrun | reflexivity].
Qed.

Lemma ContractScanner_scan_bytecode_fuel_add (fuel k : nat) (bytecode : string) :
  ContractScanner.scan_bytecode fuel bytecode <> OutOfFuel ->
  ContractScanner.scan_bytecode (fuel + k) bytecode
  = ContractScanner.scan_bytecode fuel bytecode.
Proof.
  unfold ContractScanner.scan_bytecode.
  destruct (Py.len _ <? 2); [reflexivity|]. intros Hrun.
  rewrite ContractScanner_scan_patterns_fuel_add; [reflexivity|].
  intros E. rewrite E in Hrun. apply Hrun. reflexivity.
Qed.

Lemma SafeguardScan_scan_patterns_fuel_add (fuel k : nat) (code : string)
    (ps : list SafeguardScan.pattern) (fs : list SafeguardScan.finding)
    (total : Z) :
  SafeguardScan.scan_patterns fuel code ps fs total <> OutOfFuel ->
  SafeguardScan.scan_patterns (fuel + k) code ps fs total
  = SafeguardScan.scan_patterns fuel code ps fs total.
Proof.
  revert fs total.
  induction ps as [|p ps IH]; intros fs total; simpl; [reflexivity|].
  intros Hrun.
  destruct (count_opcode fuel code (Py.lower (SafeguardScan.p_opcode p)))
    as [count| |] eqn:Hc; simpl in Hrun; [| |congruence];
    rewrite count_opcode_fuel_add, Hc by congruence; simpl;
    [destruct (0 <? count); apply IH, Hrun | reflexivity].
Qed.

Lemma SafeguardScan_scan_bytecode_fuel_add (fuel k : nat) (code_hex : string) :
  SafeguardScan.scan_bytecode fuel code_hex <> OutOfFuel ->
  SafeguardScan.scan_bytecode (fuel + k) code_hex
  = SafeguardScan.scan_bytecode fuel code_hex.
Proof.
  unfold SafeguardScan.scan_bytecode.
  destruct (Py.len _ <? 2); [reflexivity|]. intros Hrun.
  rewrite SafeguardScan_scan_patterns_fuel_add; [reflexivity|].
  intros E. rewrite E in Hrun. apply Hrun. reflexivity.
Qed.

(** ** The walk on well-formed bytecode *)

Lemma substring_two_hex (n : nat) (s : string) :
  all_hex s = true -> (n + 2 <= String.length s)%nat ->
  exists a b, String.substring n 2 s = String a (String b EmptyString)
              /\ is_hex a = true /\ is_hex b = true.
Proof.
  revert n. induction s as [|c s IH]; intros n Hhex Hlen; simpl in *; [lia|].
  apply andb_true_iff in Hhex as [Hc Hs].
  destruct n as [|n].
  - destruct s as [|d s]; simpl in *; [lia|].
    apply andb_true_iff in Hs as [Hd _].
    exists c, d. destruct s; auto.
  - apply IH; [assumption|lia].
Qed.

(** A byte of two hex digits between [60] and [7f] is a PUSH opcode:
    [int(byte, 16)] is its value, from 0x60 to 0x7f. *)
Lemma push_byte_value (a b : ascii) :
  is_hex a = true -> is_hex b = true ->
  let byte := Py.lower (String a (String b EmptyString)) in
  Py.le "60" byte && Py.le byte "7f" = true ->
  exists v, Py.int16 byte = Some v /\ 96 <= v <= 127.
Proof.
  intros Ha Hb.
  destruct a as [[] [] [] [] [] [] [] []]; try discriminate Ha;
    destruct b as [[] [] [] [] [] [] [] []]; try discriminate Hb;
    vm_compute; intros Hr; try discriminate Hr;
    eexists; (split; [reflexivity|split; discriminate]).
Qed.

(** On a full byte of hex digits one iteration moves the cursor forward
    by an even number of characters, at least two. *)
Lemma walk_body_advances (code opcode : string) (i count : Z) :
  all_hex code = true -> 0 <= i -> i + 2 <= Py.len code ->
  exists d count', walk_body code opcode i count = Ok (i + 2 * d, count')
                   /\ 1 <= d.
Proof.
  intros Hhex Hi Hlen.
  assert (Hslice : Py.slice code i (i + 2)
                   = String.substring (Z.to_nat i) 2 code).
  { unfold Py.slice, Py.slice_bound.
    rewrite (proj2 (Z.ltb_ge i 0)), (proj2 (Z.ltb_ge (i + 2) 0)) by lia.
    rewrite !Z.min_l by lia. rewrite (proj2 (Z.ltb_lt i (i + 2))) by lia.
    replace (i + 2 - i) with 2 by lia. reflexivity. }
  destruct (substring_two_hex (Z.to_nat i) code Hhex) as (a & b & Hab & Ha & Hb).
  { unfold Py.len in Hlen. lia. }
  unfold walk_body. rewrite Hslice, Hab.
  pose proof (push_byte_value a b Ha Hb) as Hpush. cbv zeta in Hpush.
  destruct (Py.le "60" _ && Py.le _ "7f").
  - destruct (Hpush eq_refl) as (v & -> & Hv).
    exists (1 + (v - 95)). eexists. split; [f_equal; f_equal; lia | lia].
  - exists 1. eexists. split; [reflexivity | lia].
Qed.

Lemma walk_terminates (code opcode : string) :
  all_hex code = true -> Z.even (Py.len code) = true ->
  forall (fuel : nat) (k count : Z),
    0 <= k -> Py.len code - 2 * k <= 2 * Z.of_nat fuel ->
    exists n, walk fuel code opcode (2 * k) count = Ok n.
Proof.
  intros Hhex Heven.
  apply Z.even_spec in Heven as [half Hhalf].
  induction fuel as [|fuel IH]; intros k count Hk Hfuel; simpl.
  - rewrite (proj2 (Z.ltb_ge _ _)) by lia. eauto.
  - destruct (2 * k <? Py.len code) eqn:Hlt; [|eauto].
    apply Z.ltb_lt in Hlt.
    destruct (walk_body_advances code opcode (2 * k) count Hhex)
      as (d & count' & -> & Hd); [lia..|].
    replace (2 * k + 2 * d) with (2 * (k + d)) by lia.
    apply IH; lia.
Qed.

(** On a body of hex digits of even length the opcode count is returned
    within one iteration per byte. *)
Lemma count_opcode_terminates (code opcode : string) (fuel : nat) :
  all_hex code = true -> Z.even (Py.len code) = true ->
  Py.len code <= 2 * Z.of_nat fuel ->
  exists n, count_opcode fuel code opcode = Ok n.
Proof.
  intros Hhex Heven Hfuel.
  apply (walk_terminates code opcode Hhex Heven fuel 0 0); lia.
Qed.

(** X1.  Both scanners return a result on every input whose body, the
    [0x] prefix cut off, is an even number of hex digits, within one loop
    iteration per byte. *)
Lemma scan_bytecode_returns (fuel : nat) (h : string) :
  all_hex (ContractScanner.strip_prefix h) = true ->
  Z.even (Py.len (ContractScanner.strip_prefix h)) = true ->
  Py.len (ContractScanner.strip_prefix h) <= 2 * Z.of_nat fuel ->
  (exists r, ContractScanner.scan_bytecode fuel h = Ok r)
  /\ (exists r, SafeguardScan.scan_bytecode fuel h = Ok r).
Proof.
  intros Hhex Heven Hfuel.
  pose proof (fun op => count_opcode_terminates _ op fuel Hhex Heven Hfuel)
    as Hcount.
  split.
  - unfold ContractScanner.scan_bytecode.
    destruct (Py.len _ <? 2); [eauto|].
    assert (Hps : forall ps fs,
              exists fs', ContractScanner.scan_patterns fuel
                            (ContractScanner.strip_prefix h) ps fs = Ok fs').
    { induction ps as [|p ps IH]; intros fs; simpl; [eauto|].
      destruct (Hcount (Py.lower (ContractScanner.p_opcode p))) as [n ->].
      simpl. apply IH. }
    destruct (Hps ContractScanner.PATTERNS []) as [fs' ->]. simpl. eauto.
  - unfold SafeguardScan.scan_bytecode.
    change (SafeguardScan.strip_prefix h)
      with (ContractScanner.strip_prefix h).
    destruct (Py.len _ <? 2); [eauto|].
    assert (Hps : forall ps fs total,
              exists r, SafeguardScan.scan_patterns fuel
                          (ContractScanner.strip_prefix h) ps fs total = Ok r).
    { induction ps as [|p ps IH]; intros fs total; simpl; [eauto|].
      destruct (Hcount (Py.lower (SafeguardScan.p_opcode p))) as [n ->].
      simpl. destruct (0 <? n); apply IH. }
    destruct (Hps SafeguardScan.PATTERNS [] 0) as [[fs' total'] ->].
    simpl. eauto.
Qed.

(** ** The bytecode scanners on concrete inputs *)

(** On the body [007] the walk reads the byte [00] at [i = 0], then the
    one-character slice [7] at [i = 2].  As a string, [7] lies between
    [60] and [7f], and [int("7", 16) - 0x5f] is [-88]: the cursor moves
    to [-172]. *)
Example walk_body_half_byte :
  walk_body "007" "ff" 0 0 = Ok (2, 0)
  /\ walk_body "007" "ff" 2 0 = Ok (-172, 0).
Proof. split; reflexivity. Qed.

(** From [-172] the cursor climbs by 2 through empty slices back to 0. *)
Example steps_half_byte : steps 88 "007" "ff" 0 0 = Some (0, 0).
Proof. vm_compute. reflexivity. Qed.

Lemma count_opcode_half_byte (fuel : nat) :
  count_opcode fuel "007" "ff" = OutOfFuel.
Proof. apply (walk_cycle "007" "ff" 87). vm_compute. reflexivity. Qed.

(** C1 (the code does not do this).  The opcode walk is claimed to
    terminate on every input, odd-length bodies included.  On the input
    [0x007] the walk of both scanners never leaves its loop: whatever the
    fuel, [scan_bytecode] has not returned. *)
Theorem scan_bytecode_odd_length_never_returns (fuel : nat) :
  ContractScanner.scan_bytecode fuel "0x007" = OutOfFuel
  /\ SafeguardScan.scan_bytecode fuel "0x007" = OutOfFuel.
Proof.
  pose proof (count_opcode_half_byte fuel) as Hw.
  split.
  - unfold ContractScanner.scan_bytecode.
    change (ContractScanner.strip_prefix "0x007") with "007".
    change (Py.len "007" <? 2) with false. cbv iota.
    unfold ContractScanner.PATTERNS.
    cbn [ContractScanner.scan_patterns ContractScanner.p_opcode].
    change (Py.lower "ff") with "ff". rewrite Hw. reflexivity.
  - unfold SafeguardScan.scan_bytecode.
    change (SafeguardScan.strip_prefix "0x007") with "007".
    change (Py.len "007" <? 2) with false. cbv iota.
    unfold SafeguardScan.PATTERNS.
    cbn [SafeguardScan.scan_patterns SafeguardScan.p_opcode].
    change (Py.lower "ff") with "ff". rewrite Hw. reflexivity.
Qed.

(** C2.  On [0x6000f46000ff] both scanners report one selfdestruct and
    one delegatecall finding, each counted once, and nothing else; on
    [0x60ff00] they report no finding at all, the [ff] being the
    immediate of the PUSH1.  Four loop iterations are enough fuel. *)
Theorem scan_bytecode_push_skip_examples (k : nat) :
  ContractScanner.scan_bytecode (4 + k) "0x6000f46000ff"
  = Ok (ContractScanner.ReportDict
          {| ContractScanner.bytecodeSize := 6;
             ContractScanner.riskScore := 60;
             ContractScanner.riskLevel := DENY;
             ContractScanner.findings :=
               [ContractScanner.Finding "selfdestruct" CRITICAL
                  "Contract can self-destruct, draining all funds" (Some 1);
                ContractScanner.Finding "delegatecall" HIGH
                  "Uses delegatecall — can execute arbitrary code in contract context"
                  (Some 1)];
             ContractScanner.knownSelectors := [] |})
  /\ SafeguardScan.scan_bytecode (4 + k) "0x6000f46000ff"
     = Ok {| SafeguardScan.findings :=
               [SafeguardScan.Finding "selfdestruct" CRITICAL
                  "Can self-destruct, destroying contract and draining ETH balance" 1;
                SafeguardScan.Finding "delegatecall" HIGH
                  "Executes external code in this contract's storage context (proxy/upgrade risk)"
                  1];
             SafeguardScan.selectors := Some [];
             SafeguardScan.risk_score := 60;
             SafeguardScan.bytecode_size := Some 6 |}
  /\ ContractScanner.scan_bytecode (4 + k) "0x60ff00"
     = Ok (ContractScanner.ReportDict
             {| ContractScanner.bytecodeSize := 3;
                ContractScanner.riskScore := 0;
                ContractScanner.riskLevel := APPROVE;
                ContractScanner.findings := [];
                ContractScanner.knownSelectors := [] |})
  /\ SafeguardScan.scan_bytecode (4 + k) "0x60ff00"
     = Ok {| SafeguardScan.findings := [];
             SafeguardScan.selectors := Some [];
             SafeguardScan.risk_score := 0;
             SafeguardScan.bytecode_size := Some 3 |}.
Proof.
  split; [|split; [|split]].
  - rewrite ContractScanner_scan_bytecode_fuel_add;
      vm_compute; [reflexivity | discriminate].
  - rewrite SafeguardScan_scan_bytecode_fuel_add;
      vm_compute; [reflexivity | discriminate].
  - rewrite ContractScanner_scan_bytecode_fuel_add;
      vm_compute; [reflexivity | discriminate].
  - rewrite SafeguardScan_scan_bytecode_fuel_add;
      vm_compute; [reflexivity | discriminate].
Qed.

(** C3 (the code does not do this).  The risk score is claimed never to
    exceed 100.  [contract_scanner.py] returns the plain sum: three
    SELFDESTRUCT bytes score 120. *)
Theorem contract_scanner_score_not_clamped (k : nat) :
  ContractScanner.scan_bytecode (3 + k) "0xffffff"
  = Ok (ContractScanner.ReportDict
          {| ContractScanner.bytecodeSize := 3;
             ContractScanner.riskScore := 120;
             ContractScanner.riskLevel := DENY;
             ContractScanner.findings :=
               [ContractScanner.Finding "selfdestruct" CRITICAL
                  "Contract can self-destruct, draining all funds" (Some 3)];
             ContractScanner.knownSelectors := [] |}).
Proof.
  rewrite ContractScanner_scan_bytecode_fuel_add;
    vm_compute; [reflexivity | discriminate].
Qed.

(** C4 (the code does not do this).  For a body of fewer than two hex
    characters the result is claimed to be the empty-contract finding
    with score 100 and the top verdict.  [safeguard_scan.py] answers the
    finding with score 100, which its threshold table maps to BLOCK;
    [contract_scanner.py] answers the bare list of findings, with no
    score and no risk level. *)
Theorem empty_body_results (fuel : nat) (bytecode : string) :
  Py.len (ContractScanner.strip_prefix bytecode) < 2 ->
  ContractScanner.scan_bytecode fuel bytecode
  = Ok (ContractScanner.FindingList [ContractScanner.empty_contract])
  /\ SafeguardScan.scan_bytecode fuel bytecode
     = Ok {| SafeguardScan.findings := [SafeguardScan.empty_contract];
             SafeguardScan.selectors := None;
             SafeguardScan.risk_score := 100;
             SafeguardScan.bytecode_size := None |}
  /\ SafeguardScan.verdict_of_score 100 = BLOCK.
Proof.
  intros Hlen. apply Z.ltb_lt in Hlen.
  unfold ContractScanner.scan_bytecode, SafeguardScan.scan_bytecode.
  change (SafeguardScan.strip_prefix bytecode)
    with (ContractScanner.strip_prefix bytecode).
  rewrite Hlen. repeat split.
Qed.

Lemma empty_body_results_witness :
  ContractScanner.scan_bytecode 0 "0x"
  = Ok (ContractScanner.FindingList [ContractScanner.empty_contract])
  /\ SafeguardScan.scan_bytecode 0 "0x"
     = Ok {| SafeguardScan.findings := [SafeguardScan.empty_contract];
             SafeguardScan.selectors := None;
             SafeguardScan.risk_score := 100;
             SafeguardScan.bytecode_size := None |}
  /\ SafeguardScan.verdict_of_score 100 = BLOCK.
Proof. apply (empty_body_results 0 "0x"). vm_compute. reflexivity. Defined.

(** C10 (the code does not do this).  The scan is claimed not to depend
    on the letter case of the hex digits.  [contract_scanner.py] looks
    the selectors up in the body as given: the selector of
    [transfer(address,uint256)] is found in the lower-case body and
    missed in the upper-case one. *)
Theorem contract_scanner_selectors_case_sensitive (k : nat) :
  ContractScanner.scan_bytecode (4 + k) "0xA9059CBB"
  = Ok (ContractScanner.ReportDict
          {| ContractScanner.bytecodeSize := 4;
             ContractScanner.riskScore := 0;
             ContractScanner.riskLevel := APPROVE;
             ContractScanner.findings := [];
             ContractScanner.knownSelectors := [] |})
  /\ ContractScanner.scan_bytecode (4 + k) (Py.lower "0xA9059CBB")
     = Ok (ContractScanner.ReportDict
             {| ContractScanner.bytecodeSize := 4;
                ContractScanner.riskScore := 0;
                ContractScanner.riskLevel := APPROVE;
                ContractScanner.findings := [];
                ContractScanner.knownSelectors :=
                  [ContractScanner.SelectorHit
                     (ContractScanner.SelectorInfo "transfer(address,uint256)"
                        LOW "Standard ERC20 — check context")
                     "0xa9059cbb"] |}).
Proof.
  split.
  - rewrite ContractScanner_scan_bytecode_fuel_add;
      vm_compute; [reflexivity | discriminate].
  - rewrite ContractScanner_scan_bytecode_fuel_add;
      vm_compute; [reflexivity | discriminate].
Qed.

(** ** The score of [safeguard_scan.py] *)

Lemma weighted_sum_app (fs gs : list SafeguardScan.finding) :
  weighted_sum (fs ++ gs) = weighted_sum fs + weighted_sum gs.
Proof.
  unfold weighted_sum. induction fs as [|f fs IH]; [reflexivity|].
  cbn in *. lia.
Qed.

(** Each pattern carries the weight of its severity. *)
Lemma SafeguardScan_scores_are_weights :
  Forall (fun p => SafeguardScan.p_score p
                   = ContractScanner.severity_scores (SafeguardScan.p_severity p))
         SafeguardScan.PATTERNS.
Proof. repeat constructor. Qed.

Lemma SafeguardScan_scan_patterns_total (fuel : nat) (code : string)
    (ps : list SafeguardScan.pattern) (fs fs' : list SafeguardScan.finding)
    (total total' : Z) :
  Forall (fun p => SafeguardScan.p_score p
                   = ContractScanner.severity_scores (SafeguardScan.p_severity p))
         ps ->
  SafeguardScan.scan_patterns fuel code ps fs total = Ok (fs', total') ->
  total = weighted_sum fs -> total' = weighted_sum fs'.
Proof.
  intros Hps. revert fs total.
  induction Hps as [|p ps Hp _ IH]; intros fs total; simpl.
  - intros [= <- <-]. auto.
  - destruct (count_opcode fuel code (Py.lower (SafeguardScan.p_opcode p)))
      as [count| |]; simpl; [|discriminate..].
    destruct (0 <? count); intros Hscan Htotal; [|eauto].
    apply (IH _ _ Hscan). rewrite weighted_sum_app, Htotal, Hp.
    unfold weighted_sum. simpl. lia.
Qed.

(** X7.  Whenever [safeguard_scan.py] returns, its score is at most 100; on a
    body of at least one byte it is the weighted sum of the findings,
    clamped at 100. *)
Lemma SafeguardScan_score_clamped (fuel : nat) (code_hex : string)
    (r : SafeguardScan.result) :
  SafeguardScan.scan_bytecode fuel code_hex = Ok r ->
  SafeguardScan.risk_score r <= 100
  /\ (2 <= Py.len (SafeguardScan.strip_prefix code_hex) ->
      SafeguardScan.risk_score r
      = Z.min (weighted_sum (SafeguardScan.findings r)) 100).
Proof.
  unfold SafeguardScan.scan_bytecode.
  destruct (Py.len _ <? 2) eqn:Hlen.
  - intros [= <-]. simpl. split; [lia|]. apply Z.ltb_lt in Hlen. lia.
  - destruct (SafeguardScan.scan_patterns _ _ _ _ _) as [[fs total]| |] eqn:Hs;
      simpl; [|discriminate..].
    intros [= <-]. simpl. split; [lia|]. intros _.
    rewrite (SafeguardScan_scan_patterns_total _ _ _ _ _ _ _
               SafeguardScan_scores_are_weights Hs); reflexivity.
Qed.

(** ** Letter case *)

Lemma lower_char_idem (c : ascii) :
  Py.lower_char (Py.lower_char c) = Py.lower_char c.
Proof. destruct c as [[] [] [] [] [] [] [] []]; reflexivity. Qed.

Lemma lower_idem (s : string) : Py.lower (Py.lower s) = Py.lower s.
Proof.
  induction s as [|c s IH]; simpl; [reflexivity|].
  rewrite lower_char_idem, IH. reflexivity.
Qed.

Lemma len_lower (s : string) : Py.len (Py.lower s) = Py.len s.
Proof.
  unfold Py.len. f_equal.
  induction s as [|c s IH]; simpl; [reflexivity|]. rewrite IH. reflexivity.
Qed.

Lemma substring_lower (n m : nat) (s : string) :
  String.substring n m (Py.lower s) = Py.lower (String.substring n m s).
Proof.
  revert n m. induction s as [|c s IH]; intros [|n] [|m]; simpl;
    try reflexivity; rewrite ?IH; reflexivity.
Qed.

Lemma slice_lower (s : string) (lo hi : Z) :
  Py.slice (Py.lower s) lo hi = Py.lower (Py.slice s lo hi).
Proof.
  unfold Py.slice. rewrite len_lower.
  destruct (_ <? _); [apply substring_lower | reflexivity].
Qed.

Lemma walk_body_lower (code opcode : string) (i count : Z) :
  walk_body (Py.lower code) opcode i count = walk_body code opcode i count.
Proof. unfold walk_body. rewrite slice_lower, lower_idem. reflexivity. Qed.

Lemma walk_lower (fuel : nat) (code opcode : string) (i count : Z) :
  walk fuel (Py.lower code) opcode i count = walk fuel code opcode i count.
Proof.
  revert i count. induction fuel as [|fuel IH]; intros i count; simpl;
    rewrite len_lower; [reflexivity|].
  rewrite walk_body_lower.
  destruct (i <? Py.len code); [|reflexivity].
  destruct (walk_body code opcode i count) as [[i' count']| |]; auto.
Qed.

Lemma SafeguardScan_scan_patterns_lower (fuel : nat) (code : string)
    (ps : list SafeguardScan.pattern) (fs : list SafeguardScan.finding)
    (total : Z) :
  SafeguardScan.scan_patterns fuel (Py.lower code) ps fs total
  = SafeguardScan.scan_patterns fuel code ps fs total.
Proof.
  revert fs total. induction ps as [|p ps IH]; intros fs total; simpl;
    [reflexivity|].
  unfold count_opcode. rewrite walk_lower.
  destruct (walk fuel code _ 0 0) as [count| |]; simpl; [|reflexivity..].
  destruct (0 <? count); apply IH.
Qed.

Lemma startswith_two (a b : ascii) (h : string) :
  Py.startswith h (String a (String b ""))
  = match h with
    | String c (String d _) => Ascii.eqb a c && Ascii.eqb b d
    | _ => false
    end.
Proof.
  unfold Py.startswith.
  destruct h as [|c [|d r]]; cbn [String.prefix]; [reflexivity| |].
  - destruct (ascii_dec a c); reflexivity.
  - destruct (ascii_dec a c) as [->|Hac].
    + rewrite Ascii.eqb_refl.
      destruct (ascii_dec b d) as [->|Hbd].
      * rewrite Ascii.eqb_refl. destruct r; reflexivity.
      * apply Ascii.eqb_neq in Hbd. rewrite Hbd. reflexivity.
    + apply Ascii.eqb_neq in Hac. rewrite Hac. reflexivity.
Qed.

Lemma lower_char_zero (c : ascii) :
  Ascii.eqb "0" (Py.lower_char c) = Ascii.eqb "0" c.
Proof. destruct c as [[] [] [] [] [] [] [] []]; reflexivity. Qed.

Lemma lower_char_x (c : ascii) :
  Ascii.eqb "x" (Py.lower_char c) = Ascii.eqb "x" c || Ascii.eqb "X" c.
Proof. destruct c as [[] [] [] [] [] [] [] []]; reflexivity. Qed.

(** The prefix test is on the string as given: only a body announced by
    an upper-case [0X] is cut differently once lower-cased. *)
Lemma strip_prefix_lower (h : string) :
  Py.startswith h "0X" = false ->
  SafeguardScan.strip_prefix (Py.lower h)
  = Py.lower (SafeguardScan.strip_prefix h).
Proof.
  intros HX. unfold SafeguardScan.strip_prefix, Py.slice_from.
  rewrite len_lower, slice_lower.
  replace (Py.startswith (Py.lower h) "0x") with (Py.startswith h "0x");
    [destruct (Py.startswith h "0x"); reflexivity|].
  change "0x" with (String "0"%char (String "x"%char "")).
  change "0X" with (String "0"%char (String "X"%char "")) in HX.
  rewrite startswith_two in HX. rewrite !startswith_two.
  destruct h as [|a [|b r]]; try reflexivity. cbn [Py.lower].
  rewrite lower_char_zero, lower_char_x.
  destruct (Ascii.eqb "0" a); [|reflexivity].
  cbn [andb] in *. rewrite HX, orb_false_r. reflexivity.
Qed.

(** X12.  [safeguard_scan.py] does not depend on the letter case of its
    input. *)
Lemma SafeguardScan_case_insensitive (fuel : nat) (h : string) :
  Py.startswith h "0X" = false ->
  SafeguardScan.scan_bytecode fuel (Py.lower h)
  = SafeguardScan.scan_bytecode fuel h.
Proof.
  intros HX. unfold SafeguardScan.scan_bytecode.
  rewrite (strip_prefix_lower _ HX), len_lower.
  rewrite SafeguardScan_scan_patterns_lower.
  unfold SafeguardScan.find_selectors. rewrite lower_idem. reflexivity.
Qed.

(** An upper-case [0X] is not taken for the prefix: the two characters
    stay in the body. *)
Example SafeguardScan_upper_prefix :
  SafeguardScan.scan_bytecode 1 "0X"
  = Ok {| SafeguardScan.findings := [];
          SafeguardScan.selectors := Some [];
          SafeguardScan.risk_score := 0;
          SafeguardScan.bytecode_size := Some 1 |}.
Proof. vm_compute. reflexivity. Qed.

(** ** The verdict join *)

Section MaxDecision.
Import Safeguard.

Lemma max_decision_order (a b : decision) :
  order (max_decision a b) = Z.max (order a) (order b).
Proof. destruct a, b; reflexivity. Qed.

Lemma order_inj (a b : decision) : order a = order b -> a = b.
Proof. destruct a, b; simpl; intros; congruence || lia. Qed.

(** C8.  [max_decision] is commutative, associative and idempotent on
    APPROVE < REVIEW < DENY. *)
Theorem max_decision_semilattice (a b c : decision) :
  max_decision a b = max_decision b a
  /\ max_decision a (max_decision b c) = max_decision (max_decision a b) c
  /\ max_decision a a = a.
Proof.
  repeat split; apply order_inj; rewrite ?max_decision_order; lia.
Qed.

Lemma max_decision_review (d : decision) :
  order REVIEW <= order (max_decision d REVIEW).
Proof. rewrite max_decision_order. lia. Qed.

Lemma max_decision_keeps (d : decision) :
  order REVIEW <= order d -> order REVIEW <= order (max_decision d REVIEW).
Proof. intros _. apply max_decision_review. Qed.

End MaxDecision.

(** ** The policy gate *)

Section PolicyGate.
Import Safeguard Gate.

Lemma set_true_list_to_set (l : list string) :
  set_true (list_to_set l) = bool_decide (l <> []).
Proof.
  unfold set_true. apply bool_decide_ext.
  destruct l as [|x l]; [set_solver|].
  split; [discriminate|]. intros _. set_solver.
Qed.

Lemma elem_of_string_set (x : string) (l : list string) :
  bool_decide (x ∈ (list_to_set l : gset string)) = bool_decide (x ∈ l).
Proof. apply bool_decide_ext. apply elem_of_list_to_set. Qed.

Lemma not_elem_of_string_set (x : string) (l : list string) :
  bool_decide (x ∉ (list_to_set l : gset string)) = bool_decide (x ∉ l).
Proof. apply bool_decide_ext. rewrite elem_of_list_to_set. reflexivity. Qed.


(** What the two calls of the counterexample answer. *)
Example denied_requests_answers :
  SafeguardRequest.eval_skill
    {| SafeguardRequest.author := Some (Json.JStr " mallory ");
       SafeguardRequest.source := None;
       SafeguardRequest.requested_permissions := None |}
    {| allowlist := None;
       denylist := Some (NameLists (Some [" mallory "]) None None);
       risky_permissions := None; block_new_skills := None;
       mainnet_allowed := None; mainnet_max_usdc := None;
       max_single_usdc := None |}
  = Returns (APPROVE, ["OK"])
  /\ SafeguardRequest.eval_payment
       {| SafeguardRequest.chain := Some Json.JNull;
          SafeguardRequest.amount :=
            Some (Json.JFloat (PyFloat.round (1 # 100)));
          SafeguardRequest.to := Some (Json.JStr "0xDEAD") |}
       {| allowlist := None;
          denylist := Some (NameLists None None (Some ["0xdead"]));
          risky_permissions := None; block_new_skills := None;
          mainnet_allowed := None; mainnet_max_usdc := None;
          max_single_usdc := None |}
     = Raises Exn.AttributeError.
Proof. split; vm_compute; reflexivity. Qed.





(** C6 (the code does not do this).  Every reason raised is claimed to
    be in the returned list.  For a recipient outside the allow-list
    the allow-list check raises its reason, as the answer on a test
    chain shows; on mainnet with mainnet disabled the same payment is
    denied with the mainnet reason alone. *)
Theorem eval_payment_mainnet_deny_drops_reason :
  let policy :=
    {| allowlist := Some (NameLists None None (Some ["0x111"]));
       denylist := None; risky_permissions := None;
       block_new_skills := None; mainnet_allowed := Some false;
       mainnet_max_usdc := None; max_single_usdc := None |} in
  eval_payment
    {| chain := Some "base-sepolia"; amount := Some 1%Q; to := Some "0xabc" |}
    policy
  = (REVIEW, ["Recipient not in allowlist"])
  /\ eval_payment
       {| chain := Some "mainnet"; amount := Some 1%Q; to := Some "0xabc" |}
       policy
     = (DENY, ["Mainnet disabled"]).
Proof. split; vm_compute; reflexivity. Qed.

(** C7 as stated fails for the empty author: the check is skipped and
    the skill is approved. *)
Lemma author_check_empty_author :
  ~ author_check
      {| author := Some ""; source := None; requested_permissions := None |}
      {| allowlist := Some (NameLists (Some ["alice"]) None None);
         denylist := None; risky_permissions := None;
         block_new_skills := None; mainnet_allowed := None;
         mainnet_max_usdc := None; max_single_usdc := None |}.
Proof.
  intros H. destruct H as [Hord _].
  - discriminate.
  - by_compute.
  - by_compute.
  - by_compute.
  - vm_compute in Hord. apply Hord. reflexivity.
Qed.

(** An author that is not empty once stripped, outside a non-empty
    allow-list, with neither author nor source denied, escalates to at
    least REVIEW and raises "Author not in allowlist". *)
Lemma author_check_nonempty (skill : Skill) (policy : Policy) :
  author_of skill <> "" -> author_check skill policy.
Proof.
  intros Hne Hallow Hnotin Hda Hds. unfold eval_skill.
  fold (author_of skill) (source_of skill) (deny_authors policy)
       (deny_sources policy) (allow_authors policy).
  rewrite !elem_of_string_set, !not_elem_of_string_set, !set_true_list_to_set.
  rewrite (bool_decide_eq_false_2 _ Hda), (bool_decide_eq_false_2 _ Hds).
  rewrite (bool_decide_eq_true_2 _ Hnotin), (bool_decide_eq_true_2 _ Hallow).
  assert (Htrue : str_true (author_of skill) = true).
  { unfold str_true. apply negb_true_iff, String.eqb_neq, Hne. }
  rewrite Htrue. cbn [orb andb].
  repeat match goal with
         | |- context [if ?c then _ else _] => destruct c
         end; cbn [fst snd or_ok app];
    (split; [repeat apply max_decision_keeps; reflexivity
            | apply list_elem_of_here]).
Qed.

(** An author that is empty once stripped is not checked against the
    allow-list: the answer is the one of the policy without its
    allow-list of authors. *)
Lemma author_check_skipped (skill : Skill) (policy : Policy) :
  author_of skill = "" ->
  eval_skill skill policy = eval_skill skill (without_author_allowlist policy).
Proof.
  intros Hempty. unfold eval_skill.
  fold (author_of skill). rewrite Hempty.
  destruct policy as [[[a s d]|] dl r b m mm ms]; reflexivity.
Qed.

(** No check but the author check raises the reason of the author
    check. *)
Lemma author_reason_absent (skill : Skill) (policy : Policy) :
  author_of skill = "" ->
  "Author not in allowlist" ∉ (eval_skill skill policy).2.
Proof.
  intros Hempty. unfold eval_skill.
  fold (author_of skill). rewrite Hempty.
  change (str_true "") with false. cbn [andb].
  repeat match goal with
         | |- context [if ?c then _ else _] => destruct c
         end; cbn [fst snd or_ok app];
    intros Hin;
    repeat (apply elem_of_cons in Hin as [Hin|Hin]; [discriminate Hin|]);
    apply elem_of_nil in Hin; exact Hin.
Qed.

(** C7, amended.  An author that is not empty once stripped, outside a
    non-empty allow-list, with neither author nor source denied,
    escalates to at least REVIEW and raises "Author not in allowlist".
    An author that is empty once stripped (empty, white space only, or
    missing) skips the check: the reason is never raised, and the
    answer is the one the policy gives without its allow-list of
    authors. *)
Theorem author_allowlist_check (skill : Skill) (policy : Policy) :
  (author_of skill <> "" -> author_check skill policy)
  /\ (author_of skill = "" ->
      ("Author not in allowlist" ∉ (eval_skill skill policy).2)
      /\ eval_skill skill policy
         = eval_skill skill (without_author_allowlist policy)).
Proof.
  split.
  - apply author_check_nonempty.
  - intros Hempty. split.
    + apply author_reason_absent, Hempty.
    + apply author_check_skipped, Hempty.
Qed.

Lemma author_allowlist_check_witness :
  let policy :=
    {| allowlist := Some (NameLists (Some ["alice"]) None None);
       denylist := None; risky_permissions := None;
       block_new_skills := None; mainnet_allowed := None;
       mainnet_max_usdc := None; max_single_usdc := None |} in
  let bob := {| author := Some "bob"; source := None;
                requested_permissions := None |} in
  let blank := {| author := Some "  "; source := None;
                  requested_permissions := None |} in
  (order REVIEW <= order (eval_skill bob policy).1
   /\ "Author not in allowlist" ∈ (eval_skill bob policy).2)
  /\ ("Author not in allowlist" ∉ (eval_skill blank policy).2)
  /\ eval_skill blank policy
     = eval_skill blank (without_author_allowlist policy).
Proof.
  intros policy bob blank. split.
  - apply (proj1 (author_allowlist_check bob policy)).
    + discriminate.
    + discriminate.
    + by_compute.
    + by_compute.
    + by_compute.
  - apply (proj2 (author_allowlist_check blank policy)). reflexivity.
Defined.

(** ** Typed requests and loaded requests

    On a request whose fields have the types the code expects, the
    functions on loaded requests return what the typed functions
    return. *)

Lemma str_set_of_strings (l : list string) :
  Json.str_set (Json.JList (Json.JStr <$> l))
  = Returns (list_to_set l : gset string).
Proof.
  unfold Json.str_set.
  assert (forallb Json.hashable (Json.JStr <$> l) = true) as ->
    by (induction l; simpl; auto).
  assert (omap Json.as_str (Json.JStr <$> l) = l) as ->.
  { induction l as [|x l IH]; [reflexivity|].
    change (omap Json.as_str (Json.JStr <$> x :: l))
      with (x :: omap Json.as_str (Json.JStr <$> l)).
    rewrite IH. reflexivity. }
  reflexivity.
Qed.

Lemma eval_skill_of_skill (skill : Skill) (policy : Policy) :
  SafeguardRequest.eval_skill (SafeguardRequest.of_skill skill) policy
  = Returns (eval_skill skill policy).
Proof.
  unfold SafeguardRequest.eval_skill, eval_skill.
  assert (Hread : SafeguardRequest.read_skill (SafeguardRequest.of_skill skill)
                  = Returns (author_of skill, source_of skill)).
  { destruct skill as [[a|] [s|] p]; reflexivity. }
  rewrite Hread. cbn [mbind outcome_bind].
  fold (author_of skill) (source_of skill).
  assert (Hset : Json.str_set
                   (default (Json.JList [])
                      (SafeguardRequest.requested_permissions
                         (SafeguardRequest.of_skill skill)))
                 = Returns (list_to_set (default [] (requested_permissions skill))
                            : gset string)).
  { destruct skill as [a s [l|]]; [apply str_set_of_strings | reflexivity]. }
  rewrite Hset. cbn [mbind outcome_bind].
  repeat match goal with
         | |- context [if ?c then _ else _] => destruct c
         end; reflexivity.
Qed.

Lemma eval_payment_of_payment (tx : Payment) (policy : Policy) :
  SafeguardRequest.eval_payment (SafeguardRequest.of_payment tx) policy
  = Returns (eval_payment tx policy).
Proof.
  unfold SafeguardRequest.eval_payment, eval_payment.
  assert (Hread : SafeguardRequest.read_payment (SafeguardRequest.of_payment tx)
                  = Returns (chain_of tx,
                             PyFloat.Finite (default 0%Q (amount tx)),
                             recipient_of tx)).
  { destruct tx as [[c|] [q|] [[|x r]|]]; reflexivity. }
  rewrite Hread. cbn [mbind outcome_bind].
  fold (chain_of tx) (recipient_of tx).
  change (PyFloat.gt (PyFloat.Finite ?a) (PyFloat.Finite ?b)) with (gt a b).
  change (PyFloat.truthy (PyFloat.Finite ?a)) with (float_true a).
  repeat match goal with
         | |- context [if ?c then _ else _] => destruct c
         end; reflexivity.
Qed.

End PolicyGate.

(** ** Missing policy fields *)

Section Defaults.
Import Safeguard Gate.

(** C9 as stated fails: with every policy field missing a payment of a
    million USDC completes its evaluation and is approved. *)
Lemma incomplete_policy_approves :
  ~ incomplete_policy_blocks
      {| chain := Some "base-sepolia"; amount := Some 1000000%Q;
         to := Some "0xabc" |}
      {| allowlist := None; denylist := None; risky_permissions := None;
         block_new_skills := None; mainnet_allowed := None;
         mainnet_max_usdc := None; max_single_usdc := None |}.
Proof. intros H. apply H; [exact I | vm_compute; reflexivity]. Qed.

Lemma eval_payment_with_defaults (tx : Payment) (policy : Policy) :
  eval_payment tx (with_defaults policy) = eval_payment tx policy.
Proof.
  destruct policy as [[[a s d]|] [[a' s' d']|] r b m mm ms];
    destruct ms, mm, m; try destruct d; try destruct d'; reflexivity.
Qed.

Lemma eval_skill_with_defaults (skill : Skill) (policy : Policy) :
  eval_skill skill (with_defaults policy) = eval_skill skill policy.
Proof.
  destruct policy as [[[a s d]|] [[a' s' d']|] r b m mm ms];
    destruct r, b; try destruct a; try destruct s;
    try destruct a'; try destruct s'; reflexivity.
Qed.

Lemma single_limit_unset_false (policy : Policy) :
  single_limit_unset policy ->
  float_true (default 0%Q (max_single_usdc policy)) = false.
Proof.
  unfold single_limit_unset, float_true.
  destruct (max_single_usdc policy) as [q|]; simpl; [|reflexivity].
  intros Hq. apply negb_false_iff, Qeq_bool_iff, Hq.
Qed.

Lemma single_limit_reason_absent (tx : Payment) (policy : Policy) :
  single_limit_unset policy ->
  "Exceeds single-tx limit" ∉ snd (eval_payment tx policy).
Proof.
  intros Hunset. unfold eval_payment.
  rewrite (single_limit_unset_false _ Hunset). cbn [andb].
  repeat match goal with
         | |- context [if ?c then _ else _] => destruct c
         end; cbn [fst snd or_ok app]; by_compute.
Qed.

Lemma unchecked_payment_approved (tx : Payment) (policy : Policy) :
  single_limit_unset policy ->
  recipient_of tx ∉ (Py.lower <$> deny_addresses policy) ->
  (allow_addresses policy = []
   \/ recipient_of tx ∈ (Py.lower <$> allow_addresses policy)) ->
  chain_of tx <> "mainnet" ->
  eval_payment tx policy = (APPROVE, ["OK"]).
Proof.
  intros Hunset Hdeny Hallow Hchain. unfold eval_payment.
  rewrite (single_limit_unset_false _ Hunset).
  fold (recipient_of tx) (chain_of tx) (deny_addresses policy)
       (allow_addresses policy).
  rewrite (bool_decide_eq_false_2 _ (proj2 (not_iff_compat (elem_of_list_to_set _ _)) Hdeny)).
  assert (Hskip :
    Safeguard.set_true (list_to_set (Py.lower <$> allow_addresses policy))
    && bool_decide (recipient_of tx
                    ∉ (list_to_set (Py.lower <$> allow_addresses policy)
                       : gset string)) = false).
  { destruct Hallow as [-> | Hin].
    - reflexivity.
    - apply andb_false_intro2, bool_decide_eq_false_2.
      intros Hn. apply Hn, elem_of_list_to_set, Hin. }
  rewrite Hskip.
  apply String.eqb_neq in Hchain. rewrite Hchain. reflexivity.
Qed.

Lemma spendguard_single_limit_absent (tx : Spendguard.Tx)
    (policy : Spendguard.Policy) (daily_spend : gmap Z Q) :
  Spendguard.max_single_usdc policy = None ->
  "over_single_limit"
  ∉ snd (fst (Spendguard.evaluate_transaction tx policy daily_spend)).
Proof.
  intros Hnone. unfold Spendguard.evaluate_transaction. rewrite Hnone.
  destruct (bool_decide (_ ∈ _)); [cbn [fst snd]; by_compute|].
  destruct (default ∅ (Spendguard.category_limits_usdc policy) !! _) as [l|];
    [destruct (Spendguard.gt _ l)|];
    (destruct (Spendguard.daily_limit_usdc policy) as [l'|];
     [destruct (Spendguard.gt _ l')|]);
    destruct (bool_decide (_ ≠ ∅) && _);
    repeat match goal with
           | |- context [if ?c then _ else _] => destruct c
           end; cbn [fst snd app]; by_compute.
Qed.

(** C9, amended.  No policy field is required: a policy and the same
    policy with its missing fields written out as the defaults (empty
    lists, false flags, zero ceilings) are evaluated alike.  With the
    single-transaction ceiling missing or zero, [eval_payment] never
    raises the single-transaction reason, and a payment to a recipient
    that is not denied and passes the allow-list, on a chain other than
    mainnet, is approved with reason OK whatever its amount.  With the
    ceiling missing, [evaluate_transaction] never raises its
    single-limit reason either. *)
Theorem missing_fields_take_defaults (tx : Payment) (skill : Skill)
    (policy : Policy) (stx : Spendguard.Tx) (spolicy : Spendguard.Policy)
    (daily_spend : gmap Z Q) :
  eval_payment tx (with_defaults policy) = eval_payment tx policy
  /\ eval_skill skill (with_defaults policy) = eval_skill skill policy
  /\ (single_limit_unset policy ->
      ("Exceeds single-tx limit" ∉ snd (eval_payment tx policy))
      /\ (recipient_of tx ∉ (Py.lower <$> deny_addresses policy) ->
          (allow_addresses policy = []
           \/ recipient_of tx ∈ (Py.lower <$> allow_addresses policy)) ->
          chain_of tx <> "mainnet" ->
          eval_payment tx policy = (APPROVE, ["OK"])))
  /\ (Spendguard.max_single_usdc spolicy = None ->
      "over_single_limit"
      ∉ snd (fst (Spendguard.evaluate_transaction stx spolicy daily_spend))).
Proof.
  split; [apply eval_payment_with_defaults|].
  split; [apply eval_skill_with_defaults|].
  split.
  - intros Hunset. split.
    + apply single_limit_reason_absent, Hunset.
    + apply unchecked_payment_approved, Hunset.
  - apply spendguard_single_limit_absent.
Qed.

Lemma missing_fields_take_defaults_witness :
  let tx := {| chain := Some "base-sepolia"; amount := Some 1000000%Q;
               to := Some "0xabc" |} in
  let policy := {| allowlist := None; denylist := None;
                   risky_permissions := None; block_new_skills := None;
                   mainnet_allowed := None; mainnet_max_usdc := None;
                   max_single_usdc := Some 0%Q |} in
  let stx := {| Spendguard.amount_usdc := 1000000%Q;
                Spendguard.category := None;
                Spendguard.recipient := None;
                Spendguard.date := 739000 |} in
  let spolicy := {| Spendguard.deny_recipients := None;
                    Spendguard.max_single_usdc := None;
                    Spendguard.category_limits_usdc := None;
                    Spendguard.daily_limit_usdc := None;
                    Spendguard.known_recipients := None |} in
  ("Exceeds single-tx limit" ∉ snd (eval_payment tx policy))
  /\ eval_payment tx policy = (APPROVE, ["OK"])
  /\ "over_single_limit"
     ∉ snd (fst (Spendguard.evaluate_transaction stx spolicy ∅)).
Proof.
  intros tx policy stx spolicy.
  destruct (missing_fields_take_defaults tx
              {| author := None; source := None;
                 requested_permissions := None |}
              policy stx spolicy ∅) as (_ & _ & Hpay & Hspend).
  destruct Hpay as [Habsent Happrove]; [reflexivity|].
  split; [exact Habsent|]. split.
  - apply Happrove; [by_compute | left; reflexivity | discriminate].
  - apply Hspend. reflexivity.
Defined.

End Defaults.

(** * Further properties *)

Ltac split_conditions :=
  repeat match goal with
         | |- context [if ?c then _ else _] => destruct c eqn:?
         end.

(** ** The scanners on well-formed bytecode *)

Lemma walk_body_count (code opcode : string) (i count i' count' : Z) :
  walk_body code opcode i count = Ok (i', count') ->
  count <= count' <= count + 1.
Proof.
  unfold walk_body.
  destruct (String.eqb _ opcode);
    destruct (Py.le "60" _ && Py.le _ "7f");
    try destruct (Py.int16 _); intros [= <- <-] || discriminate; lia.
Qed.

Lemma walk_count_bounds (code opcode : string) (half : Z) :
  all_hex code = true -> Py.len code = 2 * half ->
  forall (fuel : nat) (k count : Z),
    0 <= k -> Py.len code - 2 * k <= 2 * Z.of_nat fuel ->
    exists n, walk fuel code opcode (2 * k) count = Ok n
              /\ count <= n <= count + Z.max 0 (half - k).
Proof.
  intros Hhex Hhalf.
  induction fuel as [|fuel IH]; intros k count Hk Hfuel; simpl.
  - rewrite (proj2 (Z.ltb_ge _ _)) by lia. exists count. split; [reflexivity|lia].
  - destruct (2 * k <? Py.len code) eqn:Hlt;
      [|exists count; split; [reflexivity|lia]].
    apply Z.ltb_lt in Hlt.
    destruct (walk_body_advances code opcode (2 * k) count Hhex)
      as (d & count' & Hbody & Hd); [lia..|].
    rewrite Hbody. apply walk_body_count in Hbody.
    replace (2 * k + 2 * d) with (2 * (k + d)) by lia.
    destruct (IH (k + d) count') as (n & -> & Hn); [lia..|].
    exists n. split; [reflexivity|lia].
Qed.

(** X2.  On a body of hex digits of even length the walk returns, and
    the count of any opcode lies between 0 and the number of bytes. *)
Theorem count_opcode_bounds (code opcode : string) (fuel : nat) :
  all_hex code = true -> Z.even (Py.len code) = true ->
  Py.len code <= 2 * Z.of_nat fuel ->
  exists n, count_opcode fuel code opcode = Ok n /\ 0 <= n <= Py.len code / 2.
Proof.
  intros Hhex Heven Hfuel.
  apply Z.even_spec in Heven as [half Hhalf].
  destruct (walk_count_bounds code opcode half Hhex Hhalf fuel 0 0)
    as (n & Hn & Hb); [lia..|].
  exists n. split; [exact Hn|].
  replace (Py.len code / 2) with half
    by (rewrite Hhalf, Z.mul_comm, Z.div_mul; lia).
  unfold Py.len in Hhalf. lia.
Qed.

Lemma count_opcode_bounds_witness :
  exists n, count_opcode 3 "ff00ff" "ff" = Ok n /\ 0 <= n <= Py.len "ff00ff" / 2.
Proof.
  apply (count_opcode_bounds "ff00ff" "ff" 3); [reflexivity..|by_compute].
Defined.

Lemma scan_bytecode_returns_witness :
  (exists r, ContractScanner.scan_bytecode 6 "0x6000F46000FF" = Ok r)
  /\ (exists r, SafeguardScan.scan_bytecode 6 "0x6000F46000FF" = Ok r).
Proof.
  apply (scan_bytecode_returns 6 "0x6000F46000FF"); [reflexivity..|by_compute].
Defined.

(** ** Findings *)

Lemma SafeguardScan_scan_patterns_findings (fuel : nat) (code : string)
    (ps : list SafeguardScan.pattern) (fs fs' : list SafeguardScan.finding)
    (total total' : Z) :
  SafeguardScan.scan_patterns fuel code ps fs total = Ok (fs', total') ->
  exists new,
    fs' = fs ++ new
    /\ Forall (fun f => 1 <= SafeguardScan.f_count f) new
    /\ sublist (SafeguardScan.f_name <$> new) (SafeguardScan.p_name <$> ps).
Proof.
  revert fs total. induction ps as [|p ps IH]; intros fs total; simpl.
  - intros [= <- <-]. exists []. rewrite app_nil_r.
    repeat split; constructor.
  - destruct (count_opcode fuel code _) as [count| |]; simpl; [|discriminate..].
    destruct (0 <? count) eqn:Hc; intros Hscan;
      apply IH in Hscan as (new & -> & Hall & Hsub).
    + eexists (_ :: new). rewrite <- app_assoc. split; [reflexivity|].
      apply Z.ltb_lt in Hc.
      split; [constructor; [simpl; lia | exact Hall]|].
      simpl. apply sublist_skip, Hsub.
    + exists new. split; [reflexivity|]. split; [exact Hall|].
      simpl. apply sublist_cons, Hsub.
Qed.

(** X6.  Whenever [safeguard_scan.py] returns, every finding has a count
    of at least 1 and the findings name patterns of the table, each at
    most once, in the order of the table. *)
Theorem SafeguardScan_findings_follow_table (fuel : nat) (code_hex : string)
    (r : SafeguardScan.result) :
  SafeguardScan.scan_bytecode fuel code_hex = Ok r ->
  2 <= Py.len (SafeguardScan.strip_prefix code_hex) ->
  Forall (fun f => 1 <= SafeguardScan.f_count f) (SafeguardScan.findings r)
  /\ sublist (SafeguardScan.f_name <$> SafeguardScan.findings r)
             ["selfdestruct"; "delegatecall"; "callcode"; "create2"; "tx.origin"].
Proof.
  unfold SafeguardScan.scan_bytecode. intros Hscan Hlen.
  rewrite (proj2 (Z.ltb_ge _ _)) in Hscan by lia.
  destruct (SafeguardScan.scan_patterns _ _ _ _ _) as [[fs total]| |] eqn:Hs;
    simpl in Hscan; [|discriminate..].
  injection Hscan as <-. simpl.
  apply SafeguardScan_scan_patterns_findings in Hs as (new & -> & Hall & Hsub).
  split; assumption.
Qed.

Lemma SafeguardScan_findings_follow_table_witness :
  Forall (fun f => 1 <= SafeguardScan.f_count f)
    [SafeguardScan.Finding "callcode" HIGH
       "Deprecated CALLCODE — potential proxy attack vector" 2]
  /\ sublist ["callcode"]
             ["selfdestruct"; "delegatecall"; "callcode"; "create2"; "tx.origin"].
Proof.
  apply (SafeguardScan_findings_follow_table 3 "0xf200f2"
           {| SafeguardScan.findings :=
                [SafeguardScan.Finding "callcode" HIGH
                   "Deprecated CALLCODE — potential proxy attack vector" 2];
              SafeguardScan.selectors := Some [];
              SafeguardScan.risk_score := 40;
              SafeguardScan.bytecode_size := Some 3 |});
    [vm_compute; reflexivity | by_compute].
Defined.

(** ** The walk, byte by byte *)

Lemma len_app (a b : string) : Py.len (a +:+ b) = Py.len a + Py.len b.
Proof.
  unfold Py.len. induction a as [|c a IH].
  - change ("" +:+ b) with b. simpl String.length. lia.
  - change (String c a +:+ b) with (String c (a +:+ b)).
    simpl String.length. lia.
Qed.

Lemma string_app_assoc (a b c : string) : (a +:+ b) +:+ c = a +:+ (b +:+ c).
Proof.
  induction a as [|x a IH]; [reflexivity|].
  change (String x a +:+ b) with (String x (a +:+ b)).
  change (String x (a +:+ b) +:+ c) with (String x ((a +:+ b) +:+ c)).
  rewrite IH. reflexivity.
Qed.

Lemma substring_app_skip (pre rest : string) (k m : nat) :
  String.substring (String.length pre + k) m (pre +:+ rest)
  = String.substring k m rest.
Proof. induction pre as [|c pre IH]; [reflexivity|]. exact IH. Qed.

Lemma slice_app_skip (pre rest : string) (i : Z) :
  0 <= i ->
  Py.slice (pre +:+ rest) (Py.len pre + i) (Py.len pre + i + 2)
  = Py.slice rest i (i + 2).
Proof.
  intros Hi. unfold Py.slice, Py.slice_bound. rewrite len_app.
  assert (0 <= Py.len pre) by (unfold Py.len; lia).
  assert (0 <= Py.len rest) by (unfold Py.len; lia).
  rewrite !(proj2 (Z.ltb_ge _ 0)) by lia.
  replace (Z.min (Py.len pre + i) (Py.len pre + Py.len rest))
    with (Py.len pre + Z.min i (Py.len rest)) by lia.
  replace (Z.min (Py.len pre + i + 2) (Py.len pre + Py.len rest))
    with (Py.len pre + Z.min (i + 2) (Py.len rest)) by lia.
  destruct (Z.min i (Py.len rest) <? Z.min (i + 2) (Py.len rest)) eqn:Hlt.
  - rewrite (proj2 (Z.ltb_lt _ _)) by (apply Z.ltb_lt in Hlt; lia).
    replace (Z.to_nat (Py.len pre + Z.min i (Py.len rest)))
      with (String.length pre + Z.to_nat (Z.min i (Py.len rest)))%nat
      by (unfold Py.len; lia).
    rewrite substring_app_skip. f_equal. lia.
  - rewrite (proj2 (Z.ltb_ge _ _)) by (apply Z.ltb_ge in Hlt; lia).
    reflexivity.
Qed.

Lemma walk_body_app_skip (pre rest opcode : string) (i count : Z) :
  0 <= i ->
  walk_body (pre +:+ rest) opcode (Py.len pre + i) count
  = '(i', count') ← walk_body rest opcode i count; Ok (Py.len pre + i', count').
Proof.
  intros Hi. unfold walk_body. rewrite slice_app_skip by exact Hi.
  destruct (Py.le "60" _ && Py.le _ "7f");
    [destruct (Py.int16 _)|]; simpl; try reflexivity; f_equal; f_equal; lia.
Qed.

(** Past a prefix, the walk over a well-formed rest is the walk over
    that rest alone. *)
Lemma walk_app_skip (pre rest opcode : string) :
  all_hex rest = true -> Z.even (Py.len rest) = true ->
  forall (fuel : nat) (k count : Z),
    0 <= k ->
    walk fuel (pre +:+ rest) opcode (Py.len pre + 2 * k) count
    = walk fuel rest opcode (2 * k) count.
Proof.
  intros Hhex Heven. apply Z.even_spec in Heven as [half Hhalf].
  induction fuel as [|fuel IH]; intros k count Hk; simpl; rewrite len_app;
    replace (Py.len pre + 2 * k <? Py.len pre + Py.len rest)
      with (2 * k <? Py.len rest)
      by (destruct (2 * k <? Py.len rest) eqn:E; symmetry;
          [apply Z.ltb_lt; apply Z.ltb_lt in E | apply Z.ltb_ge; apply Z.ltb_ge in E];
          lia);
    [reflexivity|].
  destruct (2 * k <? Py.len rest) eqn:Hlt; [|reflexivity].
  apply Z.ltb_lt in Hlt.
  rewrite walk_body_app_skip by lia.
  destruct (walk_body_advances rest opcode (2 * k) count Hhex)
    as (d & count' & -> & Hd); [lia..|].
  simpl. replace (2 * k + 2 * d) with (2 * (k + d)) by lia.
  apply IH. lia.
Qed.

Lemma walk_body_count_shift (code opcode : string) (i count k : Z) :
  walk_body code opcode i (count + k)
  = '(i', count') ← walk_body code opcode i count; Ok (i', count' + k).
Proof.
  unfold walk_body.
  destruct (String.eqb _ opcode);
    (destruct (Py.le "60" _ && Py.le _ "7f"); [destruct (Py.int16 _)|]);
    simpl; try reflexivity; f_equal; f_equal; lia.
Qed.

Lemma walk_count_shift (fuel : nat) (code opcode : string) (i count k : Z) :
  walk fuel code opcode i (count + k)
  = n ← walk fuel code opcode i count; Ok (n + k).
Proof.
  revert i count. induction fuel as [|fuel IH]; intros i count; simpl.
  - destruct (i <? Py.len code); reflexivity.
  - destruct (i <? Py.len code); [|reflexivity].
    rewrite walk_body_count_shift.
    destruct (walk_body code opcode i count) as [[i' count']| |]; simpl;
      [apply IH | reflexivity..].
Qed.

Lemma slice_first_byte (a b : ascii) (s : string) :
  Py.slice (String a (String b s)) 0 2 = String a (String b EmptyString).
Proof.
  unfold Py.slice, Py.slice_bound, Py.len. simpl String.length.
  change (0 <? 0) with false. change (2 <? 0) with false. cbv iota.
  rewrite Z.min_l, Z.min_l by lia.
  change (0 <? 2) with true. cbv iota.
  change (Z.to_nat 0) with 0%nat. change (Z.to_nat (2 - 0)) with 2%nat.
  simpl. destruct s; reflexivity.
Qed.

(** The first iteration of the walk on a body that begins with the byte
    [a b]. *)
Lemma walk_first_byte (fuel : nat) (a b : ascii) (s opcode : string) :
  let byte := Py.lower (String a (String b EmptyString)) in
  let hit := if String.eqb byte opcode then 1 else 0 in
  walk (S fuel) (String a (String b s)) opcode 0 0
  = if Py.le "60" byte && Py.le byte "7f" then
      match Py.int16 byte with
      | Some v => walk fuel (String a (String b s)) opcode (2 + (v - 95) * 2) hit
      | None => ValueError
      end
    else walk fuel (String a (String b s)) opcode 2 hit.
Proof.
  cbv zeta. cbn [walk].
  replace (0 <? Py.len (String a (String b s))) with true
    by (symmetry; apply Z.ltb_lt; unfold Py.len; simpl String.length; lia).
  unfold walk_body. rewrite slice_first_byte.
  set (byte := Py.lower (String a (String b EmptyString))).
  destruct (Py.le "60" byte && Py.le byte "7f"); [destruct (Py.int16 byte)|];
    destruct (String.eqb byte opcode); reflexivity.
Qed.

(** X3.  PUSH skip.  When the body begins with a PUSH opcode, its immediate
    and a well-formed rest, the count is that of the rest, plus one when
    the opcode looked for is that PUSH itself: no character of the
    immediate is read. *)
Theorem count_opcode_push (fuel : nat) (a b : ascii) (data rest opcode : string)
    (v : Z) :
  let byte := Py.lower (String a (String b EmptyString)) in
  Py.le "60" byte && Py.le byte "7f" = true ->
  Py.int16 byte = Some v ->
  Py.len data = 2 * (v - 95) ->
  all_hex rest = true -> Z.even (Py.len rest) = true ->
  count_opcode (S fuel) (String a (String b (data +:+ rest))) opcode
  = n ← count_opcode fuel rest opcode;
    Ok (n + if String.eqb byte opcode then 1 else 0).
Proof.
  intros byte Hpush Hv Hdata Hhex Heven. unfold count_opcode.
  rewrite walk_first_byte. fold byte. rewrite Hpush, Hv.
  change (String a (String b (data +:+ rest)))
    with (String a (String b EmptyString) +:+ (data +:+ rest)).
  rewrite <- string_app_assoc.
  replace (2 + (v - 95) * 2)
    with (Py.len (String a (String b EmptyString) +:+ data) + 2 * 0)
    by (rewrite len_app, Hdata; unfold Py.len; simpl String.length; lia).
  rewrite walk_app_skip by (assumption || lia).
  apply (walk_count_shift fuel rest opcode (2 * 0) 0).
Qed.

Lemma count_opcode_push_witness :
  count_opcode 3 (String "6" (String "0" ("ff" +:+ "00ff"))) "ff"
  = n ← count_opcode 2 "00ff" "ff";
    Ok (n + if String.eqb (Py.lower "60") "ff" then 1 else 0).
Proof.
  apply (count_opcode_push 2 "6" "0" "ff" "00ff" "ff" 96); reflexivity.
Defined.

(** X4.  A PUSH whose immediate runs to or past the end of the body ends the
    walk: what is left of the body is not read. *)
Theorem count_opcode_truncated_push (fuel : nat) (a b : ascii)
    (data opcode : string) (v : Z) :
  let byte := Py.lower (String a (String b EmptyString)) in
  Py.le "60" byte && Py.le byte "7f" = true ->
  Py.int16 byte = Some v ->
  Py.len data <= 2 * (v - 95) ->
  count_opcode (S fuel) (String a (String b data)) opcode
  = Ok (if String.eqb byte opcode then 1 else 0).
Proof.
  intros byte Hpush Hv Hdata. unfold count_opcode.
  rewrite walk_first_byte. fold byte. rewrite Hpush, Hv.
  assert (Hend : (2 + (v - 95) * 2 <? Py.len (String a (String b data))) = false).
  { apply Z.ltb_ge. unfold Py.len in *. simpl String.length. lia. }
  destruct fuel; simpl; rewrite Hend; reflexivity.
Qed.

Lemma count_opcode_truncated_push_witness :
  count_opcode 1 (String "7" (String "F" "ffff")) "ff"
  = Ok (if String.eqb (Py.lower "7F") "ff" then 1 else 0).
Proof.
  apply (count_opcode_truncated_push 0 "7" "F" "ffff" "ff" 127);
    [reflexivity | reflexivity | by_compute].
Defined.

(** X5.  A byte that is no PUSH is compared with the opcode and the walk goes
    on with the rest. *)
Theorem count_opcode_plain_byte (fuel : nat) (a b : ascii) (rest opcode : string) :
  let byte := Py.lower (String a (String b EmptyString)) in
  Py.le "60" byte && Py.le byte "7f" = false ->
  all_hex rest = true -> Z.even (Py.len rest) = true ->
  count_opcode (S fuel) (String a (String b rest)) opcode
  = n ← count_opcode fuel rest opcode;
    Ok (n + if String.eqb byte opcode then 1 else 0).
Proof.
  intros byte Hplain Hhex Heven. unfold count_opcode.
  rewrite walk_first_byte. fold byte. rewrite Hplain.
  change (String a (String b rest))
    with (String a (String b EmptyString) +:+ rest).
  change 2 with (Py.len (String a (String b EmptyString)) + 2 * 0) at 1.
  rewrite walk_app_skip by (assumption || lia).
  apply (walk_count_shift fuel rest opcode (2 * 0) 0).
Qed.

Lemma count_opcode_plain_byte_witness :
  count_opcode 3 (String "F" (String "F" "00ff")) "ff"
  = n ← count_opcode 2 "00ff" "ff";
    Ok (n + if String.eqb (Py.lower "FF") "ff" then 1 else 0).
Proof. apply (count_opcode_plain_byte 2 "F" "F" "00ff" "ff"); reflexivity. Defined.

(** ** Scores and verdicts *)

Lemma SafeguardScan_score_clamped_witness :
  40 <= 100
  /\ (2 <= Py.len (SafeguardScan.strip_prefix "0xf200f2") ->
      40 = Z.min
             (weighted_sum
                [SafeguardScan.Finding "callcode" HIGH
                   "Deprecated CALLCODE — potential proxy attack vector" 2])
             100).
Proof.
  apply (SafeguardScan_score_clamped 3 "0xf200f2"
           {| SafeguardScan.findings :=
                [SafeguardScan.Finding "callcode" HIGH
                   "Deprecated CALLCODE — potential proxy attack vector" 2];
              SafeguardScan.selectors := Some [];
              SafeguardScan.risk_score := 40;
              SafeguardScan.bytecode_size := Some 3 |}).
  vm_compute. reflexivity.
Defined.

Lemma weighted_sum_positive (fs : list SafeguardScan.finding) :
  Forall (fun f => 1 <= SafeguardScan.f_count f) fs ->
  0 <= weighted_sum fs /\ (fs <> [] -> 5 <= weighted_sum fs).
Proof.
  unfold weighted_sum. induction 1 as [|f fs Hf _ [IH0 _]]; cbn.
  - split; [lia|congruence].
  - assert (5 <= ContractScanner.severity_scores (SafeguardScan.f_severity f))
      by (destruct (SafeguardScan.f_severity f); simpl; lia).
    cbn in IH0. split; [nia|intros _; nia].
Qed.

(** The range of the score, and when it is zero. *)
Lemma SafeguardScan_score_range (fuel : nat) (code_hex : string)
    (r : SafeguardScan.result) :
  SafeguardScan.scan_bytecode fuel code_hex = Ok r ->
  0 <= SafeguardScan.risk_score r <= 100
  /\ (SafeguardScan.risk_score r = 0 <-> SafeguardScan.findings r = []).
Proof.
  unfold SafeguardScan.scan_bytecode.
  destruct (Py.len _ <? 2).
  - intros [= <-]. simpl. split; [lia|]. split; [lia|discriminate].
  - destruct (SafeguardScan.scan_patterns _ _ _ _ _) as [[fs total]| |] eqn:Hs;
      simpl; [|discriminate..].
    intros [= <-]. simpl.
    pose proof (SafeguardScan_scan_patterns_total _ _ _ _ _ _ _
                  SafeguardScan_scores_are_weights Hs eq_refl) as ->.
    apply SafeguardScan_scan_patterns_findings in Hs as (new & -> & Hall & _).
    simpl. destruct (weighted_sum_positive new Hall) as [H0 H5].
    split; [lia|]. split.
    + intros Hmin. destruct new; [reflexivity|].
      assert (5 <= weighted_sum (f :: new)) by (apply H5; discriminate). lia.
    + intros ->. reflexivity.
Qed.

Lemma verdict_of_score_safe (s : Z) :
  SafeguardScan.verdict_of_score s = SAFE <-> s = 0.
Proof.
  unfold SafeguardScan.verdict_of_score.
  destruct (s =? 0) eqn:Hs; [apply Z.eqb_eq in Hs; tauto|].
  apply Z.eqb_neq in Hs.
  destruct (s <? 20), (s <? 40), (s <? 60); split; congruence || lia.
Qed.

(** X8.  The score of [safeguard_scan.py] is never negative, and the verdict
    its thresholds give is SAFE exactly when the scan has no finding. *)
Theorem SafeguardScan_safe_iff_no_finding (fuel : nat) (code_hex : string)
    (r : SafeguardScan.result) :
  SafeguardScan.scan_bytecode fuel code_hex = Ok r ->
  0 <= SafeguardScan.risk_score r
  /\ (SafeguardScan.verdict_of_score (SafeguardScan.risk_score r) = SAFE
      <-> SafeguardScan.findings r = []).
Proof.
  intros Hscan. rewrite verdict_of_score_safe.
  destruct (SafeguardScan_score_range _ _ _ Hscan) as [Hrange Hzero].
  split; [lia | exact Hzero].
Qed.

Lemma SafeguardScan_safe_iff_no_finding_witness :
  0 <= 0
  /\ (SafeguardScan.verdict_of_score 0 = SAFE <-> @nil SafeguardScan.finding = []).
Proof.
  apply (SafeguardScan_safe_iff_no_finding 2 "0x60ff00"
           {| SafeguardScan.findings := [];
              SafeguardScan.selectors := Some [];
              SafeguardScan.risk_score := 0;
              SafeguardScan.bytecode_size := Some 3 |}).
  vm_compute. reflexivity.
Defined.

(** X9.  Both threshold tables are monotone: a higher score never gives a
    lower level.  For the five-level table of [safeguard_scan.py] this
    holds from score 0 on. *)
Theorem score_thresholds_monotone (s1 s2 : Z) :
  s1 <= s2 ->
  Safeguard.order (ContractScanner.risk_level_of s1)
  <= Safeguard.order (ContractScanner.risk_level_of s2)
  /\ (0 <= s1 ->
      verdict_rank (SafeguardScan.verdict_of_score s1)
      <= verdict_rank (SafeguardScan.verdict_of_score s2)).
Proof.
  intros Hle. split.
  - unfold ContractScanner.risk_level_of.
    destruct (60 <=? s1) eqn:H1, (60 <=? s2) eqn:H2,
             (20 <=? s1) eqn:H3, (20 <=? s2) eqn:H4; simpl; lia.
  - intros H0. unfold SafeguardScan.verdict_of_score.
    destruct (s1 =? 0) eqn:A1, (s2 =? 0) eqn:A2,
             (s1 <? 20) eqn:B1, (s2 <? 20) eqn:B2,
             (s1 <? 40) eqn:C1, (s2 <? 40) eqn:C2,
             (s1 <? 60) eqn:D1, (s2 <? 60) eqn:D2; simpl; lia.
Qed.

Lemma score_thresholds_monotone_witness :
  Safeguard.order (ContractScanner.risk_level_of 19)
  <= Safeguard.order (ContractScanner.risk_level_of 20)
  /\ (0 <= 19 ->
      verdict_rank (SafeguardScan.verdict_of_score 19)
      <= verdict_rank (SafeguardScan.verdict_of_score 20)).
Proof. apply (score_thresholds_monotone 19 20). lia. Defined.

(** Below zero the five-level table is not monotone. *)
Example verdict_of_negative_score :
  SafeguardScan.verdict_of_score (-1) = LOW_RISK
  /\ SafeguardScan.verdict_of_score 0 = SAFE.
Proof. split; reflexivity. Qed.

(** ** The two scanners side by side *)

Lemma ContractScanner_risk_score_view (fs : list ContractScanner.finding) :
  ContractScanner.risk_score_of fs = view_sum (ContractScanner_finding_view <$> fs).
Proof.
  unfold ContractScanner.risk_score_of, view_sum.
  induction fs as [|f fs IH]; [reflexivity|]. cbn in *. rewrite IH. reflexivity.
Qed.

Lemma SafeguardScan_weighted_sum_view (fs : list SafeguardScan.finding) :
  weighted_sum fs = view_sum (SafeguardScan_finding_view <$> fs).
Proof.
  unfold weighted_sum, view_sum.
  induction fs as [|f fs IH]; [reflexivity|]. cbn in *. rewrite IH. reflexivity.
Qed.

(** The two pattern tables list the same opcodes, names and severities. *)
Lemma pattern_tables_agree :
  Forall2 (fun p q => ContractScanner.p_opcode p = SafeguardScan.p_opcode q
                      /\ ContractScanner.p_name p = SafeguardScan.p_name q
                      /\ ContractScanner.p_severity p = SafeguardScan.p_severity q)
          ContractScanner.PATTERNS SafeguardScan.PATTERNS.
Proof. repeat constructor. Qed.

Lemma scan_patterns_agree (fuel : nat) (code : string)
    (ps : list ContractScanner.pattern) (qs : list SafeguardScan.pattern) :
  Forall2 (fun p q => ContractScanner.p_opcode p = SafeguardScan.p_opcode q
                      /\ ContractScanner.p_name p = SafeguardScan.p_name q
                      /\ ContractScanner.p_severity p = SafeguardScan.p_severity q)
          ps qs ->
  forall fs gs total fs',
    ContractScanner_finding_view <$> fs = SafeguardScan_finding_view <$> gs ->
    ContractScanner.scan_patterns fuel code ps fs = Ok fs' ->
    exists gs' total',
      SafeguardScan.scan_patterns fuel code qs gs total = Ok (gs', total')
      /\ ContractScanner_finding_view <$> fs' = SafeguardScan_finding_view <$> gs'.
Proof.
  induction 1 as [|p q ps qs (Hop & Hname & Hsev) _ IH];
    intros fs gs total fs' Hview; simpl.
  - intros [= <-]. eauto.
  - rewrite <- Hop.
    destruct (count_opcode fuel code _) as [count| |]; simpl; [|discriminate..].
    destruct (0 <? count); intros Hscan; eapply IH; try exact Hscan; [|exact Hview].
    rewrite !fmap_app, Hview. cbn.
    unfold ContractScanner_finding_view, SafeguardScan_finding_view. simpl.
    rewrite Hname, Hsev. reflexivity.
Qed.

(** X10.  On a body of at least one byte, whenever [contract_scanner.py]
    returns its report [safeguard_scan.py] returns too, with the same
    findings (name, severity, count), the same size, and as score the
    score of [contract_scanner.py] clamped at 100. *)
Theorem scanners_agree (fuel : nat) (h : string) (r : ContractScanner.report) :
  ContractScanner.scan_bytecode fuel h = Ok (ContractScanner.ReportDict r) ->
  exists r',
    SafeguardScan.scan_bytecode fuel h = Ok r'
    /\ SafeguardScan_finding_view <$> SafeguardScan.findings r'
       = ContractScanner_finding_view <$> ContractScanner.findings r
    /\ SafeguardScan.risk_score r' = Z.min (ContractScanner.riskScore r) 100
    /\ SafeguardScan.bytecode_size r' = Some (ContractScanner.bytecodeSize r).
Proof.
  unfold ContractScanner.scan_bytecode, SafeguardScan.scan_bytecode.
  change (SafeguardScan.strip_prefix h) with (ContractScanner.strip_prefix h).
  destruct (Py.len _ <? 2); [discriminate|].
  destruct (ContractScanner.scan_patterns _ _ _ _) as [fs'| |] eqn:Hs;
    [|simpl; discriminate..].
  destruct (scan_patterns_agree _ _ _ _ pattern_tables_agree [] [] 0 fs'
              eq_refl Hs) as (gs' & total' & Hg & Hview).
  rewrite Hg. simpl. intros [= <-]. simpl.
  eexists. split; [reflexivity|]. simpl.
  split; [symmetry; exact Hview|]. split; [|reflexivity].
  rewrite (SafeguardScan_scan_patterns_total _ _ _ _ _ _ _
             SafeguardScan_scores_are_weights Hg eq_refl).
  rewrite ContractScanner_risk_score_view, SafeguardScan_weighted_sum_view, Hview.
  reflexivity.
Qed.

Lemma scanners_agree_witness :
  exists r',
    SafeguardScan.scan_bytecode 3 "0xffffff" = Ok r'
    /\ SafeguardScan_finding_view <$> SafeguardScan.findings r'
       = [("selfdestruct", CRITICAL, 3)]
    /\ SafeguardScan.risk_score r' = Z.min 120 100
    /\ SafeguardScan.bytecode_size r' = Some 3.
Proof.
  apply (scanners_agree 3 "0xffffff"
           {| ContractScanner.bytecodeSize := 3;
              ContractScanner.riskScore := 120;
              ContractScanner.riskLevel := DENY;
              ContractScanner.findings :=
                [ContractScanner.Finding "selfdestruct" CRITICAL
                   "Contract can self-destruct, draining all funds" (Some 3)];
              ContractScanner.knownSelectors := [] |}).
  vm_compute. reflexivity.
Defined.

(** ** The prefix and the letter case *)

Lemma substring_all (s : string) : String.substring 0 (String.length s) s = s.
Proof. induction s as [|c s IH]; simpl; [reflexivity|]. rewrite IH. reflexivity. Qed.

Lemma strip_prefix_0x (body : string) :
  ContractScanner.strip_prefix ("0x" +:+ body) = body.
Proof.
  unfold ContractScanner.strip_prefix.
  change ("0x" +:+ body) with (String "0" (String "x" body)).
  replace (Py.startswith _ "0x") with true
    by (unfold Py.startswith; simpl; destruct body; reflexivity).
  unfold Py.slice_from, Py.slice, Py.slice_bound, Py.len. simpl String.length.
  rewrite (proj2 (Z.ltb_ge 2 0)), (proj2 (Z.ltb_ge (Z.of_nat _) 0)) by lia.
  rewrite Z.min_l, Z.min_id by lia.
  destruct body as [|c body]; [reflexivity|].
  rewrite (proj2 (Z.ltb_lt _ _)) by (simpl String.length; lia).
  replace (Z.to_nat (Z.of_nat (S (S (String.length (String c body)))) - 2))
    with (String.length (String c body)) by lia.
  change (Z.to_nat 2) with 2%nat.
  cbn [String.substring]. apply (substring_all (String c body)).
Qed.

(** X11.  A body that does not itself begin with [0x] is scanned alike with
    and without the [0x] prefix, by both scanners. *)
Theorem scan_bytecode_prefix_optional (fuel : nat) (body : string) :
  Py.startswith body "0x" = false ->
  ContractScanner.scan_bytecode fuel ("0x" +:+ body)
  = ContractScanner.scan_bytecode fuel body
  /\ SafeguardScan.scan_bytecode fuel ("0x" +:+ body)
     = SafeguardScan.scan_bytecode fuel body.
Proof.
  intros Hno.
  assert (Hbody : ContractScanner.strip_prefix body = body).
  { unfold ContractScanner.strip_prefix. rewrite Hno. reflexivity. }
  unfold ContractScanner.scan_bytecode, SafeguardScan.scan_bytecode.
  change SafeguardScan.strip_prefix with ContractScanner.strip_prefix.
  rewrite strip_prefix_0x, Hbody. split; reflexivity.
Qed.

Lemma scan_bytecode_prefix_optional_witness :
  ContractScanner.scan_bytecode 4 ("0x" +:+ "6000f46000ff")
  = ContractScanner.scan_bytecode 4 "6000f46000ff"
  /\ SafeguardScan.scan_bytecode 4 ("0x" +:+ "6000f46000ff")
     = SafeguardScan.scan_bytecode 4 "6000f46000ff".
Proof. apply scan_bytecode_prefix_optional. reflexivity. Defined.

Lemma SafeguardScan_case_insensitive_witness :
  SafeguardScan.scan_bytecode 4 (Py.lower "0x42966C68F4")
  = SafeguardScan.scan_bytecode 4 "0x42966C68F4".
Proof. apply SafeguardScan_case_insensitive. reflexivity. Defined.

(** ** The callers of the scanners *)

Section AddressScans.
Import SafeguardScan SafeguardAddress.

(** X13.  An address that is not in the table of known contracts and for which
    the RPC gives no code (no answer, or an empty or bare [0x] result) is
    reported as an empty contract: BLOCK, score 100. *)
Theorem scan_address_without_code (fuel : nat) (address : string)
    (eth_getCode : string -> option string) :
  dict_get KNOWN_SAFE (Py.lower address) = None ->
  eth_getCode (Py.lower address) = None
  \/ eth_getCode (Py.lower address) = Some ""
  \/ eth_getCode (Py.lower address) = Some "0x" ->
  exists r, scan_address fuel address eth_getCode = Ok r
            /\ a_verdict r = BLOCK /\ a_risk_score r = 100
            /\ a_findings r = [empty_contract].
Proof.
  intros Hknown Hcode. unfold scan_address. rewrite Hknown.
  assert (fetch_bytecode eth_getCode (Py.lower address) = "0x") as ->.
  { unfold fetch_bytecode. destruct Hcode as [-> | [-> | ->]]; reflexivity. }
  eexists. split; [reflexivity|]. repeat split.
Qed.

Lemma scan_address_without_code_witness :
  exists r, scan_address 0 "0xDEAD" (fun _ => None) = Ok r
            /\ a_verdict r = BLOCK /\ a_risk_score r = 100
            /\ a_findings r = [empty_contract].
Proof.
  apply scan_address_without_code; [reflexivity | left; reflexivity].
Defined.

(** X14.  Whenever [scan_address] returns, the score is between 0 and 100, the
    verdict is the one the thresholds give for the score, and it is SAFE
    exactly when the report has no finding. *)
Theorem scan_address_verdict (fuel : nat) (address : string)
    (eth_getCode : string -> option string) (r : address_report) :
  scan_address fuel address eth_getCode = Ok r ->
  0 <= a_risk_score r <= 100
  /\ a_verdict r = verdict_of_score (a_risk_score r)
  /\ (a_verdict r = SAFE <-> a_findings r = []).
Proof.
  unfold scan_address.
  destruct (dict_get KNOWN_SAFE _) as [info|].
  - intros [= <-]. simpl. repeat split; lia.
  - destruct (scan_bytecode fuel _) as [res| |] eqn:Hscan; simpl;
      [|discriminate..].
    intros [= <-]. simpl.
    destruct (SafeguardScan_score_range _ _ _ Hscan) as [Hrange Hzero].
    rewrite verdict_of_score_safe. repeat split; try lia; apply Hzero.
Qed.

Lemma scan_address_verdict_witness :
  0 <= 40 <= 100
  /\ HIGH_RISK = verdict_of_score 40
  /\ (HIGH_RISK = SAFE
      <-> [Finding "selfdestruct" CRITICAL
             "Can self-destruct, destroying contract and draining ETH balance" 1]
          = []).
Proof.
  apply (scan_address_verdict 2 "0xDEAD" (fun _ => Some "0x00ff")
           {| a_address := "0xDEAD"; a_verdict := HIGH_RISK; a_risk_score := 40;
              a_reason := None; a_identity := None; a_chain := None;
              a_findings :=
                [Finding "selfdestruct" CRITICAL
                   "Can self-destruct, destroying contract and draining ETH balance" 1];
              a_selectors := Some [];
              a_reasons :=
                Some [finding_reason
                        (Finding "selfdestruct" CRITICAL
                           "Can self-destruct, destroying contract and draining ETH balance" 1)];
              a_bytecode_size := Some 2;
              a_explorer := "https://sepolia.basescan.org/address/0xDEAD" |}).
  vm_compute. reflexivity.
Defined.

(** For an address outside the table of known contracts, [main] given
    the bytecode and [scan_address] given an RPC that answers the same
    bytecode conclude alike: same verdict, score and findings. *)
Theorem main_bytecode_as_scan_address (fuel : nat) (address code : string)
    (eth_getCode : string -> option string)
    (res : result) (v : verdict) (reasons : list string) :
  dict_get KNOWN_SAFE (Py.lower address) = None ->
  code <> "" ->
  eth_getCode (Py.lower address) = Some code ->
  main_bytecode fuel address code = Ok (res, address, v, reasons) ->
  exists r, scan_address fuel address eth_getCode = Ok r
            /\ a_verdict r = v /\ a_risk_score r = risk_score res
            /\ a_findings r = findings res.
Proof.
  intros Hknown Hne Hrpc. unfold main_bytecode, scan_address.
  rewrite Hknown. unfold fetch_bytecode. rewrite Hrpc.
  apply String.eqb_neq in Hne. rewrite Hne.
  destruct (scan_bytecode fuel code) as [res'| |]; simpl; [|discriminate..].
  intros [= <- <- <-]. eexists. split; [reflexivity|]. repeat split.
Qed.

Lemma main_bytecode_as_scan_address_witness :
  exists r, scan_address 2 "0xDEAD" (fun _ => Some "0x00f5") = Ok r
            /\ a_verdict r = LOW_RISK /\ a_risk_score r = 10
            /\ a_findings r
               = [Finding "create2" MEDIUM
                    "CREATE2 — deploys contracts at predictable addresses (metamorphic risk)"
                    1].
Proof.
  apply (main_bytecode_as_scan_address 2 "0xDEAD" "0x00f5"
           (fun _ => Some "0x00f5")
           {| findings :=
                [Finding "create2" MEDIUM
                   "CREATE2 — deploys contracts at predictable addresses (metamorphic risk)"
                   1];
              selectors := Some []; risk_score := 10;
              bytecode_size := Some 2 |}
           LOW_RISK
           [finding_reason
              (Finding "create2" MEDIUM
                 "CREATE2 — deploys contracts at predictable addresses (metamorphic risk)"
                 1)]);
    [reflexivity | discriminate | reflexivity | vm_compute; reflexivity].
Defined.

(** X15.  For a transaction that is found, the call data never changes
    what [scan_tx] concludes: two transaction dicts that are not empty
    and differ in their input only have the same verdict, score and
    reasons. *)
Theorem scan_tx_ignores_calldata (fuel : nat) (txhash : string)
    (tx : tx_json) (input : option string)
    (eth_getCode : string -> option string) :
  let tx' := {| t_from := t_from tx; t_to := t_to tx;
                t_value := t_value tx; t_input := input;
                t_others := t_others tx |} in
  tx_empty tx = false ->
  tx_empty tx' = false ->
  tx_conclusion (scan_tx fuel txhash (fun _ => Some tx') eth_getCode)
  = tx_conclusion (scan_tx fuel txhash (fun _ => Some tx) eth_getCode).
Proof.
  intros tx' Hfound Hfound'. unfold tx_conclusion, scan_tx.
  rewrite Hfound, Hfound'. unfold tx', to_or_empty.
  cbn [t_from t_to t_value t_input t_others].
  destruct (Py.int16 _); [|reflexivity].
  destruct (negb _); [|reflexivity].
  destruct (scan_address fuel _ eth_getCode); reflexivity.
Qed.

Lemma scan_tx_ignores_calldata_witness :
  tx_conclusion
    (scan_tx 0 "0xabc"
       (fun _ => Some (TxJson (Some "0x1") (Some (Some "0xDEAD")) (Some "0x0")
                         (Some "0xa9059cbb00") []))
       (fun _ => None))
  = tx_conclusion
      (scan_tx 0 "0xabc"
         (fun _ => Some (TxJson (Some "0x1") (Some (Some "0xDEAD")) (Some "0x0")
                           None []))
         (fun _ => None)).
Proof.
  apply (scan_tx_ignores_calldata 0 "0xabc"
           (TxJson (Some "0x1") (Some (Some "0xDEAD")) (Some "0x0") None [])
           (Some "0xa9059cbb00")); reflexivity.
Defined.

(** X16.  The edges of [scan_tx]: a transaction for which the RPC gives
    nothing, or a dict without a key, is reported as not found; for a
    dict that has a key, a value that is not a hex literal raises
    ValueError before the target is looked at, and with a readable value
    (a missing one counts as [0x0]) and a target that is missing, null
    or empty the transaction is a contract creation, score 50, and no
    code is fetched. *)
Theorem scan_tx_edges (fuel : nat) (txhash : string) (tx : tx_json)
    (eth_getCode : string -> option string) :
  scan_tx fuel txhash (fun _ => None) eth_getCode
  = Ok (NotFound txhash "Transaction not found")
  /\ (tx_empty tx = true ->
      scan_tx fuel txhash (fun _ => Some tx) eth_getCode
      = Ok (NotFound txhash "Transaction not found"))
  /\ (tx_empty tx = false ->
      Py.int16 (default "0x0" (t_value tx)) = None ->
      scan_tx fuel txhash (fun _ => Some tx) eth_getCode = ValueError)
  /\ (forall value,
        tx_empty tx = false ->
        Py.int16 (default "0x0" (t_value tx)) = Some value ->
        to_or_empty tx = "" ->
        exists r,
          scan_tx fuel txhash (fun _ => Some tx) eth_getCode = Ok (Scanned r)
          /\ x_verdict r = CONTRACT_CREATION /\ x_risk_score r = 50
          /\ x_value_wei r = value
          /\ x_reasons r = ["Transaction creates a new contract"]).
Proof.
  split; [reflexivity|]. split; [|split].
  - intros Hempty. unfold scan_tx. rewrite Hempty. reflexivity.
  - intros Hfound Hv. unfold scan_tx. rewrite Hfound, Hv. reflexivity.
  - intros value Hfound Hv Hto. unfold scan_tx. rewrite Hfound, Hv, Hto.
    eexists. split; [reflexivity|]. repeat split.
Qed.

Lemma scan_tx_edges_witness :
  scan_tx 0 "0xabc" (fun _ => Some (TxJson None None None None []))
    (fun _ => None)
  = Ok (NotFound "0xabc" "Transaction not found")
  /\ scan_tx 0 "0xabc"
       (fun _ => Some (TxJson (Some "0x1") (Some (Some "0xdead"))
                         (Some "12 wei") None []))
       (fun _ => None)
     = ValueError
  /\ exists r,
       scan_tx 0 "0xabc"
         (fun _ => Some (TxJson None (Some None) None None []))
         (fun _ => None)
       = Ok (Scanned r)
       /\ x_verdict r = CONTRACT_CREATION /\ x_risk_score r = 50
       /\ x_value_wei r = 0
       /\ x_reasons r = ["Transaction creates a new contract"].
Proof.
  split; [|split].
  - apply (scan_tx_edges 0 "0xabc" (TxJson None None None None [])).
    reflexivity.
  - apply (scan_tx_edges 0 "0xabc"
             (TxJson (Some "0x1") (Some (Some "0xdead")) (Some "12 wei")
                None [])); reflexivity.
  - apply (scan_tx_edges 0 "0xabc" (TxJson None (Some None) None None []));
      reflexivity.
Defined.

End AddressScans.

Section ContractScannerCli.
Import ContractScanner ContractScannerMain.

(** X17.  [main] of [contract_scanner.py] ends in a TypeError whenever the
    address is not a known contract and the bytecode it scans has an
    empty body: [scan_bytecode] then returns a list, and [main] assigns
    to it by key.  This is the case of [--bytecode 0x] and of every
    address for which the RPC answers no code. *)
Theorem main_empty_body_type_error (fuel : nat) (arg_address : option string)
    (eth_getCode : string -> option string) :
  SafeguardAddress.dict_get KNOWN_SAFE (Py.lower (default "" arg_address)) = None ->
  (forall bytecode,
     bytecode <> "" -> Py.len (strip_prefix bytecode) < 2 ->
     main fuel arg_address (Some bytecode) eth_getCode = TypeError)
  /\ (default "" arg_address <> "" ->
      Py.len (strip_prefix (fetch_bytecode eth_getCode (default "" arg_address))) < 2 ->
      main fuel arg_address None eth_getCode = TypeError).
Proof.
  intros Hknown.
  assert (Hlist : forall bytecode,
            Py.len (strip_prefix bytecode) < 2 ->
            scan_bytecode fuel bytecode = Ok (FindingList [empty_contract])).
  { intros bytecode Hlen. unfold scan_bytecode.
    rewrite (proj2 (Z.ltb_lt _ _) Hlen). reflexivity. }
  unfold main. rewrite Hknown. split.
  - intros bytecode Hne Hlen. cbn [default from_option id].
    apply String.eqb_neq in Hne. rewrite Hne. cbn [negb].
    rewrite (Hlist _ Hlen). reflexivity.
  - intros Hne Hlen. cbn [default from_option id].
    change (String.eqb "" "") with true. cbn [negb].
    apply String.eqb_neq in Hne. rewrite Hne. cbn [negb].
    rewrite (Hlist _ Hlen). reflexivity.
Qed.

Lemma main_empty_body_type_error_witness :
  main 0 (Some "0xDEAD") (Some "0x") (fun _ => None) = TypeError
  /\ main 0 (Some "0xDEAD") None (fun _ => None) = TypeError.
Proof.
  destruct (main_empty_body_type_error 0 (Some "0xDEAD") (fun _ => None))
    as [Hb Ha]; [reflexivity|].
  split.
  - apply Hb; [discriminate | by_compute].
  - apply Ha; [discriminate | by_compute].
Defined.

End ContractScannerCli.

(** ** The verdicts of the policy gate *)

Section PolicyGateVerdicts.
Import Safeguard Gate.

(** X18.  [decision] inverts the rank of [max_decision]'s order table; the only
    other rank that names the same decision is the negative index. *)
Theorem decision_of_rank_order (d : decision) (rank : Z) :
  decision_of_rank (order d) = Some d
  /\ (decision_of_rank rank = Some d -> rank = order d \/ rank = order d - 3).
Proof.
  split; [destruct d; reflexivity|].
  unfold decision_of_rank. cbn [length Z.of_nat].
  destruct (Z_lt_le_dec rank (-3)); [|destruct (Z_lt_le_dec rank 3)].
  - rewrite (proj2 (Z.leb_gt 0 rank)), (proj2 (Z.leb_gt _ rank)) by lia.
    discriminate.
  - assert (rank = -3 \/ rank = -2 \/ rank = -1 \/ rank = 0 \/ rank = 1
            \/ rank = 2) as Hr by lia.
    destruct Hr as [ -> | [ -> | [ -> | [ -> | [ -> | -> ] ] ] ] ]; cbn; intros [= <-];
      cbn; lia.
  - rewrite (proj2 (Z.ltb_ge rank _)), andb_false_r by (cbn; lia).
    rewrite (proj2 (Z.ltb_ge rank 0)), andb_false_r by lia. discriminate.
Qed.

Lemma decision_of_rank_order_witness :
  decision_of_rank (order REVIEW) = Some REVIEW
  /\ (decision_of_rank (-1) = Some DENY -> -1 = order DENY \/ -1 = order DENY - 3).
Proof.
  split.
  - apply (decision_of_rank_order REVIEW 0).
  - apply (decision_of_rank_order DENY (-1)).
Defined.

(** [eval_payment] answers DENY exactly in two cases: the recipient is
    on the deny-list, or the chain is mainnet and the policy does not
    allow mainnet. *)
Lemma eval_payment_deny_iff (tx : Payment) (policy : Policy) :
  (eval_payment tx policy).1 = DENY
  <-> recipient_of tx ∈ (Py.lower <$> deny_addresses policy)
      \/ (chain_of tx = "mainnet" /\ default false (mainnet_allowed policy) = false).
Proof.
  unfold eval_payment.
  fold (recipient_of tx) (chain_of tx) (deny_addresses policy)
       (allow_addresses policy).
  rewrite <- (elem_of_list_to_set (C := gset string)).
  destruct (bool_decide (recipient_of tx ∈ _)) eqn:Hdeny.
  - apply bool_decide_eq_true in Hdeny. simpl. tauto.
  - apply bool_decide_eq_false in Hdeny.
    destruct (String.eqb (chain_of tx) "mainnet") eqn:Hchain.
    + apply String.eqb_eq in Hchain.
      destruct (default false (mainnet_allowed policy)) eqn:Hallowed;
        cbn [negb]; split_conditions; cbn; split;
        solve [discriminate | tauto | intros [?|[_ ?]]; [tauto|discriminate]].
    + apply String.eqb_neq in Hchain.
      split_conditions; cbn; split;
        solve [discriminate | intros [?|[? _]]; tauto].
Qed.

(** [eval_skill] answers DENY exactly when the author or the source is
    on the deny-list. *)
Lemma eval_skill_deny_iff (skill : Skill) (policy : Policy) :
  (eval_skill skill policy).1 = DENY
  <-> author_of skill ∈ deny_authors policy
      \/ source_of skill ∈ deny_sources policy.
Proof.
  unfold eval_skill.
  fold (author_of skill) (source_of skill) (deny_authors policy)
       (deny_sources policy).
  rewrite !elem_of_string_set.
  destruct (bool_decide (author_of skill ∈ _)) eqn:Ha;
    destruct (bool_decide (source_of skill ∈ _)) eqn:Hs;
    try apply bool_decide_eq_true in Ha; try apply bool_decide_eq_true in Hs;
    try (cbn [orb fst]; tauto).
  apply bool_decide_eq_false in Ha, Hs. cbn [orb].
  split_conditions; cbn; split; solve [discriminate | tauto].
Qed.

(** X19.  The verdict is DENY in these cases only: for a payment, a recipient
    on the deny-list, or mainnet when the policy does not allow it; for
    a skill, an author or a source on the deny-list. *)
Theorem deny_exactly_when (tx : Payment) (skill : Skill) (policy : Policy) :
  ((eval_payment tx policy).1 = DENY
   <-> recipient_of tx ∈ (Py.lower <$> deny_addresses policy)
       \/ (chain_of tx = "mainnet"
           /\ default false (mainnet_allowed policy) = false))
  /\ ((eval_skill skill policy).1 = DENY
      <-> author_of skill ∈ deny_authors policy
          \/ source_of skill ∈ deny_sources policy).
Proof. split; [apply eval_payment_deny_iff | apply eval_skill_deny_iff]. Qed.

(** X20.  Both evaluations answer APPROVE exactly when the reason list is the
    single reason OK. *)
Theorem approve_iff_ok (tx : Payment) (skill : Skill) (policy : Policy) :
  ((eval_payment tx policy).1 = APPROVE <-> (eval_payment tx policy).2 = ["OK"])
  /\ ((eval_skill skill policy).1 = APPROVE <-> (eval_skill skill policy).2 = ["OK"]).
Proof.
  split.
  - unfold eval_payment. split_conditions; cbn; split;
      solve [discriminate | reflexivity].
  - unfold eval_skill. split_conditions; cbn; split;
      solve [discriminate | reflexivity].
Qed.

(** X21.  On mainnet with mainnet not allowed by the policy, a payment whose
    recipient is not denied is denied with the single reason of the
    mainnet check, whatever its amount and the allow-list. *)
Theorem mainnet_disabled_denies (tx : Payment) (policy : Policy) :
  recipient_of tx ∉ (Py.lower <$> deny_addresses policy) ->
  chain_of tx = "mainnet" ->
  default false (mainnet_allowed policy) = false ->
  eval_payment tx policy = (DENY, ["Mainnet disabled"]).
Proof.
  intros Hdeny Hchain Hallowed. unfold eval_payment.
  fold (recipient_of tx) (chain_of tx) (deny_addresses policy).
  rewrite bool_decide_eq_false_2
    by (rewrite elem_of_list_to_set; exact Hdeny).
  rewrite Hchain, Hallowed. cbn [String.eqb negb].
  replace (String.eqb "mainnet" "mainnet") with true by reflexivity.
  destruct (set_true _ && _); reflexivity.
Qed.

Lemma mainnet_disabled_denies_witness :
  eval_payment
    {| chain := Some "Mainnet"; amount := Some 0%Q; to := Some "0xabc" |}
    {| allowlist := Some (NameLists None None (Some ["0xABC"]));
       denylist := None; risky_permissions := None; block_new_skills := None;
       mainnet_allowed := None; mainnet_max_usdc := Some 1000%Q;
       max_single_usdc := None |}
  = (DENY, ["Mainnet disabled"]).
Proof.
  apply mainnet_disabled_denies; [by_compute | reflexivity | reflexivity].
Defined.

Lemma gt_mono (a a' m : Q) : (a <= a')%Q -> gt a m = true -> gt a' m = true.
Proof.
  unfold gt. rewrite !negb_true_iff. intros Hle Hgt.
  destruct (Qle_bool a' m) eqn:H'; [|reflexivity].
  apply Qle_bool_iff in H'.
  assert (Qle_bool a m = true) by (apply Qle_bool_iff; eapply Qle_trans; eauto).
  congruence.
Qed.

(** X22.  Raising the amount of a payment never lowers its verdict. *)
Theorem eval_payment_monotone_in_amount (tx : Payment) (policy : Policy)
    (more : Q) :
  (default 0%Q (amount tx) <= more)%Q ->
  order (eval_payment tx policy).1
  <= order (eval_payment
              {| chain := chain tx; amount := Some more; to := to tx |}
              policy).1.
Proof.
  intros Hle. unfold eval_payment. cbn [chain amount to].
  change (default 0%Q (Some more)) with more.
  pose proof (gt_mono _ _ (default 0%Q (mainnet_max_usdc policy)) Hle) as Hm.
  pose proof (gt_mono _ _ (default 0%Q (max_single_usdc policy)) Hle) as Hs.
  destruct (gt (default 0%Q (amount tx)) (default 0%Q (mainnet_max_usdc policy)));
    [rewrite (Hm eq_refl)|];
    (destruct (gt (default 0%Q (amount tx)) (default 0%Q (max_single_usdc policy)));
     [rewrite (Hs eq_refl)|]);
    split_conditions; cbn; lia.
Qed.

Lemma eval_payment_monotone_in_amount_witness :
  order (eval_payment
           {| chain := None; amount := Some 5%Q; to := None |}
           {| allowlist := None; denylist := None; risky_permissions := None;
              block_new_skills := None; mainnet_allowed := None;
              mainnet_max_usdc := None; max_single_usdc := Some 10%Q |}).1
  <= order (eval_payment
              {| chain := None; amount := Some 50%Q; to := None |}
              {| allowlist := None; denylist := None; risky_permissions := None;
                 block_new_skills := None; mainnet_allowed := None;
                 mainnet_max_usdc := None; max_single_usdc := Some 10%Q |}).1.
Proof.
  apply (eval_payment_monotone_in_amount
           {| chain := None; amount := Some 5%Q; to := None |}).
  vm_compute. discriminate.
Defined.

End PolicyGateVerdicts.

Section PolicyGateInputs.
Import Safeguard Gate.

Lemma default_fmap_idem (f : string -> string) (o : option string) :
  (forall s, f (f s) = f s) -> f (default "" (f <$> o)) = f (default "" o).
Proof. intros Hf. destruct o; simpl; [apply Hf | reflexivity]. Qed.

(** [eval_payment] reads the chain and the recipient without regard to
    letter case. *)
Lemma eval_payment_ignores_case (tx : Payment) (policy : Policy) :
  eval_payment
    {| chain := Py.lower <$> chain tx; amount := amount tx;
       to := Py.lower <$> to tx |}
    policy
  = eval_payment tx policy.
Proof.
  unfold eval_payment. cbn [chain amount to].
  rewrite !(default_fmap_idem Py.lower) by apply lower_idem. reflexivity.
Qed.

Lemma rstrip_idem (s : string) : Py.rstrip (Py.rstrip s) = Py.rstrip s.
Proof.
  induction s as [|c s IH]; [reflexivity|]. cbn [Py.rstrip].
  destruct (Py.rstrip s) as [|d r] eqn:Hr.
  - destruct (Py.isspace c) eqn:Hc; [reflexivity|].
    cbn [Py.rstrip]. rewrite Hc. reflexivity.
  - cbn [Py.rstrip]. cbn [Py.rstrip] in IH. rewrite IH. reflexivity.
Qed.

Lemma rstrip_head (c : ascii) (s : string) :
  Py.isspace c = false -> exists r, Py.rstrip (String c s) = String c r.
Proof.
  intros Hc. cbn [Py.rstrip]. destruct (Py.rstrip s); rewrite ?Hc; eauto.
Qed.

Lemma lstrip_head (s : string) :
  Py.lstrip s = EmptyString
  \/ exists c r, Py.lstrip s = String c r /\ Py.isspace c = false.
Proof.
  induction s as [|c s IH]; [left; reflexivity|]. cbn [Py.lstrip].
  destruct (Py.isspace c) eqn:Hc; [exact IH|]. right. eauto.
Qed.

Lemma strip_idem (s : string) : Py.strip (Py.strip s) = Py.strip s.
Proof.
  unfold Py.strip.
  destruct (lstrip_head s) as [-> | (c & r & -> & Hc)]; [reflexivity|].
  destruct (rstrip_head c r Hc) as [r' Hr']. rewrite Hr'.
  cbn [Py.lstrip]. rewrite Hc, <- Hr'. apply rstrip_idem.
Qed.

(** [eval_skill] reads the author and the source without regard to white
    space around them. *)
Lemma eval_skill_ignores_padding (skill : Skill) (policy : Policy) :
  eval_skill
    {| author := Py.strip <$> author skill; source := Py.strip <$> source skill;
       requested_permissions := requested_permissions skill |}
    policy
  = eval_skill skill policy.
Proof.
  unfold eval_skill. cbn [author source requested_permissions].
  rewrite !(default_fmap_idem Py.strip) by apply strip_idem. reflexivity.
Qed.

(** X23.  The gate normalises what it compares: the letter case of the chain
    and the recipient of a payment, and the white space around the
    author and the source of a skill, do not change the result. *)
Theorem gate_normalises_requests (tx : Payment) (skill : Skill)
    (policy : Policy) :
  eval_payment
    {| chain := Py.lower <$> chain tx; amount := amount tx;
       to := Py.lower <$> to tx |}
    policy
  = eval_payment tx policy
  /\ eval_skill
       {| author := Py.strip <$> author skill;
          source := Py.strip <$> source skill;
          requested_permissions := requested_permissions skill |}
       policy
     = eval_skill skill policy.
Proof.
  split; [apply eval_payment_ignores_case | apply eval_skill_ignores_padding].
Qed.

Lemma list_to_set_same (l l' : list string) :
  (forall x, x ∈ l <-> x ∈ l') ->
  (list_to_set l : gset string) = list_to_set l'.
Proof.
  intros H. apply set_eq. intros x. rewrite !elem_of_list_to_set. apply H.
Qed.

(** X24.  [eval_skill] reads the requested permissions and the lists of the
    policy as sets: the order and the repetitions of their entries do
    not change the verdict nor the reasons. *)
Theorem eval_skill_reads_sets (skill : Skill) (policy : Policy)
    (perms risky : list string) :
  (forall x, x ∈ default [] (requested_permissions skill) <-> x ∈ perms) ->
  (forall x, x ∈ default [] (risky_permissions policy) <-> x ∈ risky) ->
  eval_skill
    {| author := author skill; source := source skill;
       requested_permissions := Some perms |}
    {| allowlist := allowlist policy; denylist := denylist policy;
       risky_permissions := Some risky;
       block_new_skills := block_new_skills policy;
       mainnet_allowed := mainnet_allowed policy;
       mainnet_max_usdc := mainnet_max_usdc policy;
       max_single_usdc := max_single_usdc policy |}
  = eval_skill skill policy.
Proof.
  intros Hperms Hrisky. unfold eval_skill.
  cbn [author source requested_permissions allowlist denylist
       risky_permissions block_new_skills].
  change (default [] (Some perms)) with perms.
  change (default [] (Some risky)) with risky.
  rewrite <- (list_to_set_same _ _ Hperms), <- (list_to_set_same _ _ Hrisky).
  reflexivity.
Qed.

Lemma eval_skill_reads_sets_witness :
  eval_skill
    {| author := Some "bob"; source := None;
       requested_permissions := Some ["wallet"; "exec"; "wallet"] |}
    {| allowlist := None; denylist := None;
       risky_permissions := Some ["exec"; "wallet"];
       block_new_skills := None; mainnet_allowed := None;
       mainnet_max_usdc := None; max_single_usdc := None |}
  = eval_skill
      {| author := Some "bob"; source := None;
         requested_permissions := Some ["exec"; "wallet"] |}
      {| allowlist := None; denylist := None;
         risky_permissions := Some ["wallet"; "exec"; "exec"];
         block_new_skills := None; mainnet_allowed := None;
         mainnet_max_usdc := None; max_single_usdc := None |}.
Proof.
  apply (eval_skill_reads_sets
           {| author := Some "bob"; source := None;
              requested_permissions := Some ["exec"; "wallet"] |}
           {| allowlist := None; denylist := None;
              risky_permissions := Some ["wallet"; "exec"; "exec"];
              block_new_skills := None; mainnet_allowed := None;
              mainnet_max_usdc := None; max_single_usdc := None |});
    intros x; cbn [default from_option id requested_permissions risky_permissions];
    rewrite !elem_of_cons, !elem_of_nil; tauto.
Defined.

(** X25.  When a requested permission is risky and neither author nor source
    is denied, the skill is at least under REVIEW and one reason lists
    the risky permissions requested: each once, in increasing order. *)
Theorem risky_permissions_reason (skill : Skill) (policy : Policy) :
  author_of skill ∉ deny_authors policy ->
  source_of skill ∉ deny_sources policy ->
  (exists x, x ∈ default [] (requested_permissions skill)
             /\ x ∈ default [] (risky_permissions policy)) ->
  exists l,
    ("Risky permissions: " +:+ PyRepr.repr_list l) ∈ (eval_skill skill policy).2
    /\ Sorted String.le l /\ NoDup l
    /\ (forall x, x ∈ l <-> x ∈ default [] (requested_permissions skill)
                            /\ x ∈ default [] (risky_permissions policy))
    /\ order REVIEW <= order (eval_skill skill policy).1.
Proof.
  intros Hda Hds (x & Hx1 & Hx2).
  set (risky := (list_to_set (default [] (requested_permissions skill))
                 ∩ list_to_set (default [] (risky_permissions policy))
                 : gset string)).
  exists (PyRepr.sorted risky).
  assert (Hperm : PyRepr.sorted risky ≡ₚ elements risky)
    by apply merge_sort_Permutation.
  assert (Hne : set_true risky = true).
  { unfold set_true. apply bool_decide_eq_true_2.
    intros He. assert (x ∈ risky) as Hin by (subst risky; set_solver).
    rewrite He in Hin. set_solver. }
  split; [|split; [|split; [|split]]].
  - unfold eval_skill.
    fold (author_of skill) (source_of skill) (deny_authors policy)
         (deny_sources policy).
    rewrite !elem_of_string_set.
    rewrite (bool_decide_eq_false_2 _ Hda), (bool_decide_eq_false_2 _ Hds).
    cbn [orb]. fold risky. rewrite Hne.
    repeat match goal with
           | |- context [if ?c then _ else _] => destruct c
           end; cbn [fst snd or_ok app]; set_solver.
  - apply (Sorted_merge_sort String.le).
  - rewrite Hperm. apply NoDup_elements.
  - intros y. rewrite Hperm, elem_of_elements. subst risky.
    rewrite elem_of_intersection, !elem_of_list_to_set. reflexivity.
  - unfold eval_skill.
    fold (author_of skill) (source_of skill) (deny_authors policy)
         (deny_sources policy).
    rewrite !elem_of_string_set.
    rewrite (bool_decide_eq_false_2 _ Hda), (bool_decide_eq_false_2 _ Hds).
    cbn [orb]. fold risky. rewrite Hne.
    repeat match goal with
           | |- context [if ?c then _ else _] => destruct c
           end; cbn [fst snd]; by_compute.
Qed.

Lemma risky_permissions_reason_witness :
  exists l,
    ("Risky permissions: " +:+ PyRepr.repr_list l)
    ∈ (eval_skill
         {| author := None; source := None;
            requested_permissions := Some ["wallet"; "net"; "exec"; "wallet"] |}
         {| allowlist := None; denylist := None;
            risky_permissions := Some ["exec"; "wallet"];
            block_new_skills := None; mainnet_allowed := None;
            mainnet_max_usdc := None; max_single_usdc := None |}).2
    /\ Sorted String.le l /\ NoDup l
    /\ (forall x, x ∈ l <-> x ∈ ["wallet"; "net"; "exec"; "wallet"]
                            /\ x ∈ ["exec"; "wallet"])
    /\ order REVIEW
       <= order (eval_skill
                   {| author := None; source := None;
                      requested_permissions :=
                        Some ["wallet"; "net"; "exec"; "wallet"] |}
                   {| allowlist := None; denylist := None;
                      risky_permissions := Some ["exec"; "wallet"];
                      block_new_skills := None; mainnet_allowed := None;
                      mainnet_max_usdc := None; max_single_usdc := None |}).1.
Proof.
  apply (risky_permissions_reason
           {| author := None; source := None;
              requested_permissions := Some ["wallet"; "net"; "exec"; "wallet"] |}
           {| allowlist := None; denylist := None;
              risky_permissions := Some ["exec"; "wallet"];
              block_new_skills := None; mainnet_allowed := None;
              mainnet_max_usdc := None; max_single_usdc := None |}).
  - by_compute.
  - by_compute.
  - exists "exec". split; by_compute.
Defined.

End PolicyGateInputs.

(** ** [spendguard.py] *)

Section SpendguardProperties.
Import Spendguard.

(** A recipient of the deny list is denied with the single reason of
    that check, whatever the amount and the limits, and the spend is
    left as it was. *)
Lemma evaluate_transaction_deny (tx : Tx) (policy : Policy)
    (daily_spend : gmap Z Q) :
  default "unknown" (recipient tx) ∈ default [] (deny_recipients policy) ->
  evaluate_transaction tx policy daily_spend
  = (DENY, ["recipient_on_deny_list"], daily_spend).
Proof.
  intros Hin. unfold evaluate_transaction.
  rewrite bool_decide_eq_true_2; [reflexivity|].
  apply elem_of_list_to_set, Hin.
Qed.

(** The reasons of one evaluation, as the four checks raise them. *)
Lemma evaluate_transaction_cases (tx : Tx) (policy : Policy)
    (daily_spend : gmap Z Q) :
  default "unknown" (recipient tx) ∉ default [] (deny_recipients policy) ->
  let amount := amount_usdc tx in
  let known : gset string := list_to_set (default [] (known_recipients policy)) in
  let b1 := from_option (gt amount) false (max_single_usdc policy) in
  let b2 := from_option (gt amount) false
              (default ∅ (category_limits_usdc policy)
                 !! default "uncategorized" (category tx)) in
  let b3 := from_option
              (gt (default 0%Q (daily_spend !! date tx) + amount)%Q) false
              (daily_limit_usdc policy) in
  let b4 := bool_decide (known ≠ ∅)
            && bool_decide (default "unknown" (recipient tx) ∉ known) in
  (evaluate_transaction tx policy daily_spend).1
  = (if b1 || b2 || b3 || b4 then REVIEW else APPROVE,
     (if b1 then ["over_single_limit"] else [])
     ++ (if b2 then ["over_category_limit"] else [])
     ++ (if b3 then ["over_daily_limit"] else [])
     ++ (if b4 then ["unknown_recipient"] else [])).
Proof.
  intros Hnot. cbv zeta. unfold evaluate_transaction.
  rewrite bool_decide_eq_false_2
    by (rewrite elem_of_list_to_set; exact Hnot).
  destruct (max_single_usdc policy) as [m|]; cbn [from_option];
    [destruct (gt (amount_usdc tx) m)|];
    (destruct (default ∅ (category_limits_usdc policy) !! _) as [l|];
     cbn [from_option]; [destruct (gt (amount_usdc tx) l)|]);
    (destruct (daily_limit_usdc policy) as [dl|]; cbn [from_option];
     [destruct (gt _ dl)|]);
    destruct (bool_decide (_ ≠ ∅) && _);
    cbn [app];
    repeat match goal with
           | |- context [bool_decide (?x ∈ ?l)] =>
               let b := eval vm_compute in (bool_decide (x ∈ l)) in
               change (bool_decide (x ∈ l)) with b
           end; reflexivity.
Qed.

(** X26.  The status is DENY exactly when the recipient is on the deny list
    and APPROVE exactly when no reason is raised; for a recipient that
    is not denied the reasons come in the order of the checks, each at
    most once. *)
Theorem evaluate_transaction_status (tx : Tx) (policy : Policy)
    (daily_spend : gmap Z Q) :
  let denied :=
    default "unknown" (recipient tx) ∈ default [] (deny_recipients policy) in
  let '(status, reasons, _) := evaluate_transaction tx policy daily_spend in
  (status = DENY <-> denied)
  /\ (status = APPROVE <-> reasons = [])
  /\ (~ denied ->
      sublist reasons ["over_single_limit"; "over_category_limit";
                       "over_daily_limit"; "unknown_recipient"]).
Proof.
  cbv zeta.
  destruct (decide (default "unknown" (recipient tx)
                    ∈ default [] (deny_recipients policy))) as [Hin|Hnot].
  - rewrite (evaluate_transaction_deny _ _ _ Hin).
    split; [tauto|]. split; [split; discriminate | tauto].
  - pose proof (evaluate_transaction_cases tx policy daily_spend Hnot) as Hcase.
    cbv zeta in Hcase.
    destruct (evaluate_transaction tx policy daily_spend) as [[status reasons] d].
    cbn [fst] in Hcase. injection Hcase as -> ->.
    destruct (from_option _ false (max_single_usdc policy)),
             (from_option _ false (_ !! _)),
             (from_option _ false (daily_limit_usdc policy)),
             (bool_decide _ && _); cbn;
      (split; [split; [discriminate | tauto]|]);
      (split; [split; (discriminate || reflexivity)|]); intros _;
      repeat first [apply sublist_nil | apply sublist_skip | apply sublist_cons].
Qed.

Lemma evaluate_transaction_spend_view (tx : Tx) (policy : Policy)
    (daily_spend : gmap Z Q) (d : Z) :
  default 0%Q ((evaluate_transaction tx policy daily_spend).2 !! d)
  = default 0%Q (daily_spend !! d).
Proof.
  unfold evaluate_transaction.
  destruct (bool_decide (_ ∈ _)); [reflexivity|].
  destruct (daily_limit_usdc policy) as [dl|].
  - destruct (daily_spend !! date tx) as [q|] eqn:Hq.
    + split_conditions; reflexivity.
    + assert (Hd : default 0%Q (<[date tx := 0%Q]> daily_spend !! d)
                   = default 0%Q (daily_spend !! d)).
      { destruct (decide (date tx = d)) as [<-|Hne].
        - rewrite lookup_insert_eq, Hq. reflexivity.
        - rewrite lookup_insert_ne by exact Hne. reflexivity. }
      split_conditions; cbn [snd]; exact Hd.
  - split_conditions; reflexivity.
Qed.

Lemma evaluate_transaction_status_witness :
  let '(status, reasons, _) :=
    evaluate_transaction
      {| amount_usdc := 50%Q; category := Some "travel";
         recipient := Some "acme"; date := 739000 |}
      {| deny_recipients := Some ["mallory"]; max_single_usdc := Some 10%Q;
         category_limits_usdc := None; daily_limit_usdc := Some 20%Q;
         known_recipients := Some ["bob"] |}
      ∅ in
  (status = DENY <-> "acme" ∈ ["mallory"])
  /\ (status = APPROVE <-> reasons = [])
  /\ sublist reasons ["over_single_limit"; "over_category_limit";
                      "over_daily_limit"; "unknown_recipient"].
Proof.
  pose proof (evaluate_transaction_status
                {| amount_usdc := 50%Q; category := Some "travel";
                   recipient := Some "acme"; date := 739000 |}
                {| deny_recipients := Some ["mallory"];
                   max_single_usdc := Some 10%Q;
                   category_limits_usdc := None; daily_limit_usdc := Some 20%Q;
                   known_recipients := Some ["bob"] |}
                ∅) as H.
  cbv zeta in H.
  destruct (evaluate_transaction _ _ _) as [[status reasons] d].
  destruct H as (Hdeny & Happrove & Hsub).
  split; [exact Hdeny|]. split; [exact Happrove|].
  apply Hsub. by_compute.
Defined.

(** X27.  An evaluation does not change what any date has spent: every
    recorded spend stays as it is, and a date is read alike before and
    after (at most a spend of zero is recorded for the date of the
    row). *)
Theorem evaluate_transaction_keeps_spend (tx : Tx) (policy : Policy)
    (daily_spend : gmap Z Q) (d : Z) :
  let after := (evaluate_transaction tx policy daily_spend).2 in
  default 0%Q (after !! d) = default 0%Q (daily_spend !! d)
  /\ (forall q, daily_spend !! d = Some q -> after !! d = Some q).
Proof.
  cbv zeta. split; [apply evaluate_transaction_spend_view|].
  intros q Hq. unfold evaluate_transaction.
  destruct (bool_decide (_ ∈ _)); [exact Hq|].
  destruct (daily_limit_usdc policy) as [dl|].
  - destruct (daily_spend !! date tx) as [q'|] eqn:Hq'.
    + split_conditions; exact Hq.
    + assert (date tx <> d) by congruence.
      split_conditions; cbn [snd]; rewrite lookup_insert_ne by assumption;
        exact Hq.
  - split_conditions; exact Hq.
Qed.

Lemma evaluate_transaction_keeps_spend_witness :
  (evaluate_transaction
     {| amount_usdc := 50%Q; category := None; recipient := None;
        date := 739001 |}
     {| deny_recipients := None; max_single_usdc := None;
        category_limits_usdc := None; daily_limit_usdc := Some 20%Q;
        known_recipients := None |}
     {[ 739000 := 7%Q ]}).2 !! 739000
  = Some 7%Q.
Proof.
  apply (evaluate_transaction_keeps_spend
           {| amount_usdc := 50%Q; category := None; recipient := None;
              date := 739001 |}).
  reflexivity.
Defined.

End SpendguardProperties.

Section SpendguardRuns.
Import Spendguard SpendguardMain.

Lemma spendguard_gt_mono (a a' m : Q) :
  (a <= a')%Q -> gt a m = true -> gt a' m = true.
Proof.
  unfold gt. rewrite !negb_true_iff. intros Hle Hgt.
  destruct (Qle_bool a' m) eqn:H'; [|reflexivity].
  apply Qle_bool_iff in H'.
  assert (Qle_bool a m = true) by (apply Qle_bool_iff; eapply Qle_trans; eauto).
  congruence.
Qed.

Lemma from_option_gt_mono (a a' : Q) (o : option Q) :
  (a <= a')%Q ->
  from_option (gt a) false o = true -> from_option (gt a') false o = true.
Proof. destruct o; simpl; [apply spendguard_gt_mono|auto]. Qed.

(** X28.  Raising the amount of a transaction never lowers its status. *)
Theorem evaluate_transaction_monotone (tx : Tx) (policy : Policy)
    (daily_spend : gmap Z Q) (more : Q) :
  (amount_usdc tx <= more)%Q ->
  Safeguard.order (evaluate_transaction tx policy daily_spend).1.1
  <= Safeguard.order
       (evaluate_transaction
          {| amount_usdc := more; category := category tx;
             recipient := recipient tx; date := date tx |}
          policy daily_spend).1.1.
Proof.
  intros Hle.
  destruct (decide (default "unknown" (recipient tx)
                    ∈ default [] (deny_recipients policy))) as [Hin|Hnot].
  - rewrite !evaluate_transaction_deny by exact Hin. reflexivity.
  - pose proof (evaluate_transaction_cases tx policy daily_spend Hnot) as Hlo.
    pose proof (evaluate_transaction_cases
                  {| amount_usdc := more; category := category tx;
                     recipient := recipient tx; date := date tx |}
                  policy daily_spend Hnot) as Hhi.
    cbv zeta in Hlo, Hhi. rewrite Hlo, Hhi. clear Hlo Hhi.
    cbn [amount_usdc category recipient date fst].
    pose proof (from_option_gt_mono _ _ (max_single_usdc policy) Hle) as H1.
    pose proof (from_option_gt_mono _ _
                  (default ∅ (category_limits_usdc policy)
                     !! default "uncategorized" (category tx)) Hle) as H2.
    assert (Hsum : (default 0%Q (daily_spend !! date tx) + amount_usdc tx
                    <= default 0%Q (daily_spend !! date tx) + more)%Q)
      by (apply Qplus_le_compat; [apply Qle_refl | exact Hle]).
    pose proof (from_option_gt_mono _ _ (daily_limit_usdc policy) Hsum) as H3.
    destruct (from_option (gt (amount_usdc tx)) false (max_single_usdc policy));
      [rewrite (H1 eq_refl); simpl; lia|].
    destruct (from_option (gt (amount_usdc tx)) false (_ !! _));
      [rewrite (H2 eq_refl), ?orb_true_r; simpl; lia|].
    destruct (from_option (gt (_ + amount_usdc tx)) false _);
      [rewrite (H3 eq_refl), ?orb_true_r; simpl; lia|].
    destruct (bool_decide _ && _); rewrite ?orb_true_r; simpl;
      [lia|]. repeat match goal with
                     | |- context [if ?c then _ else _] => destruct c
                     end; simpl; lia.
Qed.

Lemma evaluate_transaction_monotone_witness :
  Safeguard.order
    (evaluate_transaction
       {| amount_usdc := 5%Q; category := None; recipient := None;
          date := 739000 |}
       {| deny_recipients := None; max_single_usdc := Some 10%Q;
          category_limits_usdc := None; daily_limit_usdc := None;
          known_recipients := None |} ∅).1.1
  <= Safeguard.order
       (evaluate_transaction
          {| amount_usdc := 50%Q; category := None; recipient := None;
             date := 739000 |}
          {| deny_recipients := None; max_single_usdc := Some 10%Q;
             category_limits_usdc := None; daily_limit_usdc := None;
             known_recipients := None |} ∅).1.1.
Proof.
  apply (evaluate_transaction_monotone
           {| amount_usdc := 5%Q; category := None; recipient := None;
              date := 739000 |}).
  vm_compute. discriminate.
Defined.

End SpendguardRuns.

(** ** The loop of [main] of [spendguard.py] *)

Section SpendguardLoop.
Import Spendguard SpendguardFloat SpendguardMain.

Lemma run_rows_length (rows : list Tx) (policy : Policy)
    (daily_spend : gmap Z PyFloat.float) (results : list result) :
  length (run_rows rows policy daily_spend results).1
  = (length results + length rows)%nat.
Proof.
  revert daily_spend results.
  induction rows as [|tx rows IH]; intros daily_spend results; simpl.
  - lia.
  - destruct (evaluate_transaction tx policy daily_spend) as [[status reasons] d].
    rewrite IH, length_app. simpl. lia.
Qed.

Lemma count_status_partition (results : list result) :
  count_status APPROVE results + count_status REVIEW results
  + count_status DENY results
  = Z.of_nat (length results).
Proof.
  unfold count_status. induction results as [|r results IH]; [reflexivity|].
  rewrite !filter_cons.
  destruct r as [tx [] reasons]; cbn [r_status];
    repeat (destruct (decide _) as [?|?]; try congruence);
    cbn [length]; lia.
Qed.

(** X29.  The summary of a run counts every row of the file once: the total is
    the number of rows, and the three status counts add up to it. *)
Theorem summary_counts_rows (rows : list Tx) (policy : Policy)
    (daily_spend : gmap Z PyFloat.float) :
  let s := summarize (run_rows rows policy daily_spend []).1 in
  total s = Z.of_nat (length rows)
  /\ approve s + review s + deny s = total s.
Proof.
  cbv zeta. unfold summarize. cbn [total approve review deny].
  rewrite count_status_partition, run_rows_length. split; reflexivity.
Qed.

(** An evaluation does not change what any date has spent: at most a
    spend of zero is recorded for the date of the row. *)
Lemma evaluate_transaction_float_spend_view (tx : Tx) (policy : Policy)
    (daily_spend : gmap Z PyFloat.float) (d : Z) :
  default (PyFloat.Finite 0)
    ((evaluate_transaction tx policy daily_spend).2 !! d)
  = default (PyFloat.Finite 0) (daily_spend !! d).
Proof.
  unfold evaluate_transaction.
  destruct (bool_decide (_ ∈ _)); [reflexivity|].
  destruct (daily_limit_usdc policy) as [dl|].
  - destruct (daily_spend !! date tx) as [q|] eqn:Hq.
    + split_conditions; reflexivity.
    + assert (Hd : default (PyFloat.Finite 0)
                     (<[date tx := PyFloat.Finite 0]> daily_spend !! d)
                   = default (PyFloat.Finite 0) (daily_spend !! d)).
      { destruct (decide (date tx = d)) as [<-|Hne].
        - rewrite lookup_insert_eq, Hq. reflexivity.
        - rewrite lookup_insert_ne by exact Hne. reflexivity. }
      split_conditions; cbn [snd]; exact Hd.
  - split_conditions; reflexivity.
Qed.

(** X30.  After a run every date has spent what it had spent before with the
    amounts of all the rows of that date added to it, one float sum
    after the other in the order of the rows, whatever the status of
    the rows: the policy has no part in it. *)
Theorem run_rows_accumulates (rows : list Tx) (policy : Policy)
    (daily_spend : gmap Z PyFloat.float) (results : list result) (d : Z) :
  default (PyFloat.Finite 0) ((run_rows rows policy daily_spend results).2 !! d)
  = spent_on d rows (default (PyFloat.Finite 0) (daily_spend !! d)).
Proof.
  revert daily_spend results.
  induction rows as [|tx rows IH]; intros daily_spend results; simpl.
  - reflexivity.
  - pose proof (evaluate_transaction_float_spend_view tx policy daily_spend)
      as Hkeep.
    destruct (evaluate_transaction tx policy daily_spend) as [[status reasons] d1].
    cbn [snd] in Hkeep. rewrite IH. f_equal.
    destruct (bool_decide (date tx = d)) eqn:Hd.
    + apply bool_decide_eq_true in Hd. subst d.
      rewrite lookup_insert_eq. cbn [default from_option id].
      rewrite Hkeep. reflexivity.
    + apply bool_decide_eq_false in Hd.
      rewrite lookup_insert_ne by exact Hd. apply Hkeep.
Qed.

(** The sums are those of floats.  Three rows of one day to a denied
    recipient, 2^53 and twice 1: each row is denied and each is added,
    and the day has spent 2^53, the two additions of 1 being rounded
    away; with the large amount last, the day has spent 2^53 + 2. *)
Example run_rows_rounds :
  let policy := {| deny_recipients := Some ["mallory"];
                   max_single_usdc := None; category_limits_usdc := None;
                   daily_limit_usdc := None; known_recipients := None |} in
  let row (amount : Z) := {| amount_usdc := PyFloat.Finite (inject_Z amount);
                             category := None; recipient := Some "mallory";
                             date := 739000 |} in
  let large := 9007199254740992 in
  (run_rows [row large; row 1; row 1] policy ∅ []).2 !! 739000
  = Some (PyFloat.Finite (inject_Z large))
  /\ (run_rows [row 1; row 1; row large] policy ∅ []).2 !! 739000
     = Some (PyFloat.Finite (inject_Z (large + 2)))
  /\ r_status <$> (run_rows [row large; row 1; row 1] policy ∅ []).1
     = [DENY; DENY; DENY].
Proof. repeat split; vm_compute; reflexivity. Qed.

End SpendguardLoop.
